(** * generate_certs.py: local CA and leaf certificate provisioning

    A shallow embedding of [src/services/trae-proxy/generate_certs.py].

    The script is a sequence of effects on the file system, interleaved with
    calls to the [openssl] command-line tool, with three ways to stop early:
    [sys.exit] (through [error]), an uncaught exception, and normal return.
    It is modelled as programs in a state-and-outcome monad over a [world]:

    - the file system is a finite map from path to file content; a path is
      the string the script passes to the OS (no normalisation, no
      directories, no symbolic links);
    - file contents are byte strings and Python [str] values are the UTF-8
      encoding of their text; the locale is taken to be UTF-8, so a
      text-mode write stores the bytes of the text, and a text-mode read
      decodes them ([py_decode]): it fails on bytes that are not UTF-8 and
      turns the line ends CR LF and CR into LF;
    - whatever lies outside the script is the environment, the variables of
      [Section Script]: the shell that runs a command line, the names that
      [tempfile.mkstemp] draws, and the paths at which the OS refuses to
      create something;
    - [log] is a ghost trace: the effects of a run in the order they took
      place.  The script only appends to it and never reads it.  What the
      script prints on standard output is not recorded. *)

From Stdlib Require Import Ascii String ZArith List Lia.
From Stdlib Require DecimalString.
From stdpp Require Import gmap strings list fin_maps pretty.

Local Open Scope Z_scope.

(** ** Strings *)

(** The two characters that a Rocq string literal cannot hold as they are. *)
Definition nl : string := String "010"%char EmptyString.
Definition dq : string := String "034"%char EmptyString.

Definition bytes (l : list nat) : string :=
  string_of_list_ascii (map ascii_of_nat l).

Definition string_rev (s : string) : string :=
  string_of_list_ascii (rev (list_ascii_of_string s)).

(** [drop_prefix p s] is what follows [p] in [s], when [s] starts with [p]. *)
Fixpoint drop_prefix (p s : string) : option string :=
  match p, s with
  | EmptyString, _ => Some s
  | String a p', String b s' =>
      if Ascii.eqb a b then drop_prefix p' s' else None
  | String _ _, EmptyString => None
  end.

Fixpoint drop_any (ps : list string) (s : string) : option string :=
  match ps with
  | [] => None
  | p :: ps' =>
      match drop_prefix p s with
      | Some r => Some r
      | None => drop_any ps' s
      end
  end.

(** The code points for which Python's [str.isspace] holds, in UTF-8. *)
Definition py_whitespace : list string :=
  map bytes
    [ [9]; [10]; [11]; [12]; [13]; [28]; [29]; [30]; [31]; [32];
      [194; 133]; [194; 160]; [225; 154; 128];
      [226; 128; 128]; [226; 128; 129]; [226; 128; 130]; [226; 128; 131];
      [226; 128; 132]; [226; 128; 133]; [226; 128; 134]; [226; 128; 135];
      [226; 128; 136]; [226; 128; 137]; [226; 128; 138];
      [226; 128; 168]; [226; 128; 169]; [226; 128; 175];
      [226; 129; 159]; [227; 128; 128] ]%nat.

Fixpoint lstrip_with (ps : list string) (fuel : nat) (s : string) : string :=
  match fuel with
  | O => s
  | S fuel' =>
      match drop_any ps s with
      | Some r => lstrip_with ps fuel' r
      | None => s
      end
  end.

(** [str.strip()]: white space removed at both ends. *)
Definition py_strip (s : string) : string :=
  let l := lstrip_with py_whitespace (String.length s) s in
  let r := string_rev l in
  string_rev (lstrip_with (map string_rev py_whitespace) (String.length r) r).

(** [infix_of p s]: [p] occurs somewhere in [s]. *)
Fixpoint infix_of (p s : string) : bool :=
  match drop_prefix p s with
  | Some _ => true
  | None =>
      match s with
      | EmptyString => false
      | String _ s' => infix_of p s'
      end
  end.

(** ** Text files *)

Definition byte_in (lo hi : N) (a : ascii) : bool :=
  (lo <=? N_of_ascii a)%N && (N_of_ascii a <=? hi)%N.

(** Well-formed UTF-8, as Python's strict decoder accepts it: the shortest
    encoding of each code point, no surrogate, nothing above U+10FFFF. *)
Fixpoint utf8_valid (s : string) : bool :=
  match s with
  | EmptyString => true
  | String a r =>
      if byte_in 0 127 a then utf8_valid r
      else if byte_in 194 223 a then
        match r with
        | String b r1 => byte_in 128 191 b && utf8_valid r1
        | _ => false
        end
      else if byte_in 224 239 a then
        match r with
        | String b (String c r2) =>
            (if byte_in 224 224 a then byte_in 160 191 b
             else if byte_in 237 237 a then byte_in 128 159 b
             else byte_in 128 191 b)
            && byte_in 128 191 c && utf8_valid r2
        | _ => false
        end
      else if byte_in 240 244 a then
        match r with
        | String b (String c (String d r3)) =>
            (if byte_in 240 240 a then byte_in 144 191 b
             else if byte_in 244 244 a then byte_in 128 143 b
             else byte_in 128 191 b)
            && byte_in 128 191 c && byte_in 128 191 d && utf8_valid r3
        | _ => false
        end
      else false
  end.

(** Universal newlines on reading: CR LF and a lone CR become LF. *)
Fixpoint universal_newlines (s : string) : string :=
  match s with
  | EmptyString => EmptyString
  | String a r =>
      if Ascii.eqb a "013"%char
      then String "010"%char
             match r with
             | String b r1 =>
                 if Ascii.eqb b "010"%char then universal_newlines r1
                 else universal_newlines r
             | EmptyString => EmptyString
             end
      else String a (universal_newlines r)
  end.

(** The text that a read in text mode gives for the bytes of a file. *)
Definition py_decode (data : string) : option string :=
  if utf8_valid data then Some (universal_newlines data) else None.

(** ** Paths *)

(** [os.path.join(dir, file)] *)
Definition path_join (dir file : string) : string :=
  match file with
  | String "/"%char _ => file
  | _ =>
      match string_rev dir with
      | EmptyString => file
      | String "/"%char _ => dir +:+ file
      | _ => dir +:+ "/" +:+ file
      end
  end.

(** The path that [mkstemp] makes of a random name: in the temporary
    directory, with the prefix [tmp]. *)
Definition temp_path (dir name : string) : string :=
  path_join dir ("tmp" +:+ name).

Definition is_absolute (path : string) : bool :=
  match path with
  | String "/"%char _ => true
  | _ => false
  end.

(** ** Command lines, as the shell splits them *)

(** Words of a command line: split at spaces.  The script's command lines use
    double quotes only around the [-subj] value, which no definition below
    looks into. *)
Fixpoint words_from (cur : string) (s : string) : list string :=
  match s with
  | EmptyString =>
      match cur with EmptyString => [] | _ => [string_rev cur] end
  | String c s' =>
      if Ascii.eqb c " "%char
      then match cur with
           | EmptyString => words_from EmptyString s'
           | _ => string_rev cur :: words_from EmptyString s'
           end
      else words_from (String c cur) s'
  end.

Definition words (s : string) : list string := words_from EmptyString s.

(** The word that follows the first occurrence of the option [flag]. *)
Fixpoint flag_value (flag : string) (ws : list string) : option string :=
  match ws with
  | [] => None
  | w :: rest =>
      if String.eqb w flag
      then match rest with v :: _ => Some v | [] => None end
      else flag_value flag rest
  end.

Definition has_flag (flag : string) (ws : list string) : bool :=
  existsb (String.eqb flag) ws.

Definition decimal (s : string) : option Z :=
  match DecimalString.NilEmpty.uint_of_string s with
  | Some u => Some (Z.of_uint u)
  | None => None
  end.

(** The value of [-days] on a command line. *)
Definition days_of (command : string) : option Z :=
  match flag_value "-days" (words command) with
  | Some v => decimal v
  | None => None
  end.

(** ** The world *)

Inductive event : Type :=
  | Exec (command : string)          (* a command line handed to the shell *)
  | Stderr (text : string)           (* a line printed on the error stream *)
  | MkTemp (path content : string)   (* a temporary file created and filled *)
  | Move (src dst : string)          (* [shutil.move] done *)
  | Remove (path : string).          (* [os.unlink] / [os.remove] done *)

Record world : Type := World {
  files : gmap string string;   (* path to content *)
  temp_files : list string;     (* the module-level list [temp_files] *)
  log : list event;             (* ghost trace, oldest first *)
  clock : nat                   (* how often the environment was consulted *)
}.

Inductive exn : Type :=
  | FileNotFoundError (path : string)
  | FileExistsError
  | OSError (path : string)
  | UnicodeDecodeError.

(** How a piece of the script ends: it returns, [sys.exit] was called, or
    another exception is on its way up. *)
Inductive outcome (A : Type) : Type :=
  | Ret (a : A)
  | Exit (code : Z)
  | Raise (e : exn).
Arguments Ret {A} a.
Arguments Exit {A} code.
Arguments Raise {A} e.

Definition prog (A : Type) : Type := world -> outcome A * world.

#[global] Instance prog_ret : MRet prog := fun A a w => (Ret a, w).

#[global] Instance prog_bind : MBind prog := fun A B f m w =>
  match m w with
  | (Ret a, w') => f a w'
  | (Exit c, w') => (Exit c, w')
  | (Raise e, w') => (Raise e, w')
  end.

Definition sys_exit {A} (code : Z) : prog A := fun w => (Exit code, w).

Definition raise {A} (e : exn) : prog A := fun w => (Raise e, w).

(** [try: m  except: h] with a bare [except], which also catches
    [SystemExit]. *)
Definition try_except {A} (m h : prog A) : prog A := fun w =>
  match m w with
  | (Ret a, w') => (Ret a, w')
  | (_, w') => h w'
  end.

Definition emit (e : event) : prog unit := fun w =>
  (Ret tt, World (files w) (temp_files w) (log w ++ [e]) (clock w)).

Definition set_files (fs : gmap string string) : prog unit := fun w =>
  (Ret tt, World fs (temp_files w) (log w) (clock w)).

Definition get_files : prog (gmap string string) := fun w => (Ret (files w), w).

(** The result of [subprocess.run], with the file system the command left. *)
Record completed : Type := Completed {
  returncode : Z;
  stderr : string;
  disk : gmap string string
}.

(** File-system calls of the standard library. *)

Definition os_path_exists (path : string) : prog bool := fun w =>
  (Ret (bool_decide (is_Some (files w !! path))), w).

(** [with open(path, "r") as f: f.read()] *)
Definition read_text (path : string) : prog string := fun w =>
  match files w !! path with
  | Some data =>
      match py_decode data with
      | Some text => (Ret text, w)
      | None => (Raise UnicodeDecodeError, w)
      end
  | None => (Raise (FileNotFoundError path), w)
  end.

(** [os.unlink], and [os.remove], which is the same function. *)
Definition os_unlink (path : string) : prog unit := fun w =>
  match files w !! path with
  | Some _ =>
      (Ret tt,
       World (delete path (files w)) (temp_files w) (log w ++ [Remove path])
             (clock w))
  | None => (Raise (FileNotFoundError path), w)
  end.

Definition os_remove : string -> prog unit := os_unlink.

(** [shutil.move(src, dst)] between two file paths: a rename. *)
Definition shutil_move (src dst : string) : prog unit := fun w =>
  match files w !! src with
  | Some c =>
      (Ret tt,
       World (<[dst := c]> (delete src (files w))) (temp_files w)
             (log w ++ [Move src dst]) (clock w))
  | None => (Raise (FileNotFoundError src), w)
  end.

(** ** The script *)

Section Script.

(** The environment.  [shell t command fs] is what running [command]
    through the shell gives when the file system is [fs]; [t] is the number
    of times the environment was consulted before, so that the same command
    may give different results at different times (key generation is
    random).  [tmp_dir] is the directory of temporary files that
    [tempfile.gettempdir()] gives (from TMPDIR, TEMP, TMP, or one of the
    usual places; Python makes it an absolute path, which the statements
    that depend on it take as the hypothesis [is_absolute tmp_dir]).  [tmp_name t] is the random part of the [t]-th name that
    [tempfile.mkstemp] tries.  [denied path] holds when the OS refuses to
    create [path] (a missing parent directory, a permission). *)
Variable shell : nat -> string -> gmap string string -> completed.
Variable tmp_dir : string.
Variable tmp_name : nat -> string.
Variable denied : string -> bool.

(** [os.makedirs(path, exist_ok=True)] *)
Definition os_makedirs (path : string) : prog unit :=
  if denied path then raise (OSError path) else mret tt.

(** [with open(path, "w") as f: f.write(content)] *)
Definition write_text (path content : string) : prog unit :=
  if denied path then raise (OSError path)
  else fs ← get_files; set_files (<[path := content]> fs).

(** [tempfile.mkstemp()]: names are tried until one is free, at most
    [TMP_MAX] of them; the file is created empty. *)
Definition TMP_MAX : nat := Z.to_nat 10000.

Fixpoint mkstemp_try (fuel seq : nat) (fs : gmap string string)
  : option (string * nat) :=
  match fuel with
  | O => None
  | S fuel' =>
      let path := temp_path tmp_dir (tmp_name seq) in
      match fs !! path with
      | None => Some (path, S seq)
      | Some _ => mkstemp_try fuel' (S seq) fs
      end
  end.

Definition mkstemp : prog string := fun w =>
  match mkstemp_try TMP_MAX (clock w) (files w) with
  | Some (path, t) =>
      (Ret path,
       World (<[path := EmptyString]> (files w)) (temp_files w) (log w) t)
  | None =>
      (Raise FileExistsError,
       World (files w) (temp_files w) (log w) (clock w + TMP_MAX)%nat)
  end.

(** [os.write(fd, content.encode('utf-8')); os.close(fd)] on the descriptor
    of the file at [path]. *)
Definition os_write_close (path content : string) : prog unit := fun w =>
  (Ret tt,
   World (<[path := content]> (files w)) (temp_files w)
         (log w ++ [MkTemp path content]) (clock w)).

(** [temp_files.append(path)] *)
Definition temp_files_append (path : string) : prog unit := fun w =>
  (Ret tt, World (files w) (temp_files w ++ [path]) (log w) (clock w)).

(** [subprocess.run(command, shell=True, ..., text=True)].  What the
    command printed is text in the encoding of the locale, as the output of
    the [openssl] commands of the script is, so the result holds it decoded
    and the call returns whatever the status. *)
Definition subprocess_run (command : string) : prog completed := fun w =>
  let result := shell (clock w) command (files w) in
  (Ret result,
   World (disk result) (temp_files w) (log w ++ [Exec command])
         (S (clock w))).

(** *** [error] *)
Definition error {A} (message : string) : prog A :=
  emit (Stderr ("错误: " +:+ message));; sys_exit 1.

(** *** [run_command] *)
Definition run_command (command : string) (check : bool) : prog completed :=
  result ← subprocess_run command;
  if check && negb (returncode result =? 0)
  then error ("命令执行失败: " +:+ command +:+ nl +:+ stderr result)
  else mret result.

(** *** [create_temp_file] *)
Definition create_temp_file (content : string) : prog string :=
  path ← mkstemp;
  os_write_close path content;;
  temp_files_append path;;
  mret path.

(** *** [cleanup_temp_files], the function registered with [atexit] *)
Fixpoint cleanup_loop (paths : list string) : prog unit :=
  match paths with
  | [] => mret tt
  | path :: rest =>
      try_except (os_unlink path) (mret tt);;
      cleanup_loop rest
  end.

Definition cleanup_temp_files : prog unit := fun w =>
  cleanup_loop (temp_files w) w.

(** *** [check_openssl] *)
Definition check_openssl : prog unit :=
  try_except
    (run_command "openssl version" true;; mret tt)
    (error "未找到OpenSSL。请确保OpenSSL已安装并在PATH中。").

(** *** [create_default_config_files] *)

Definition openssl_cnf : string := "
[ req ]
default_bits        = 2048
default_md          = sha256
default_keyfile     = privkey.pem
distinguished_name  = req_distinguished_name
req_extensions      = v3_req
x509_extensions     = v3_ca

[ req_distinguished_name ]
countryName                     = 国家代码 (2字符)
countryName_default             = CN
stateOrProvinceName             = 省/州
stateOrProvinceName_default     = State
localityName                    = 城市
localityName_default            = City
organizationName                = 组织名称
organizationName_default        = Organization
organizationalUnitName          = 组织单位名称
organizationalUnitName_default  = Unit
commonName                      = 通用名称
commonName_max                  = 64
commonName_default              = localhost
emailAddress                    = 电子邮件地址
emailAddress_max                = 64
emailAddress_default            = admin@example.com

[ v3_req ]
basicConstraints       = CA:FALSE
keyUsage               = nonRepudiation, digitalSignature, keyEncipherment
extendedKeyUsage       = serverAuth
subjectAltName         = @alt_names

[ v3_ca ]
basicConstraints       = critical, CA:true
subjectKeyIdentifier   = hash
authorityKeyIdentifier = keyid:always, issuer:always
keyUsage               = cRLSign, keyCertSign, digitalSignature, nonRepudiation, keyEncipherment, dataEncipherment
".

Definition v3_ca_cnf : string := "
[ v3_ca ]
basicConstraints       = critical, CA:true
subjectKeyIdentifier   = hash
authorityKeyIdentifier = keyid:always, issuer:always
keyUsage               = cRLSign, keyCertSign, digitalSignature, nonRepudiation, keyEncipherment, dataEncipherment
".

Definition v3_req_cnf : string := "
[ v3_req ]
basicConstraints       = CA:FALSE
keyUsage               = nonRepudiation, digitalSignature, keyEncipherment
extendedKeyUsage       = serverAuth
subjectAltName         = @alt_names
".

Definition domain_cnf (domain : string) : string :=
  nl +:+ "[ alt_names ]" +:+ nl +:+ "DNS.1 = " +:+ domain +:+ nl.

Definition domain_subj (domain : string) : string :=
  "/C=CN/ST=State/L=City/O=Organization/OU=Unit/CN=" +:+ domain.

(** [if not os.path.exists(path): write the default] *)
Definition write_if_absent (path content : string) : prog unit :=
  present ← os_path_exists path;
  if negb present then write_text path content else mret tt.

Definition create_default_config_files (domain : string) : prog unit :=
  os_makedirs "ca";;
  write_if_absent "ca/openssl.cnf" openssl_cnf;;
  write_if_absent "ca/v3_ca.cnf" v3_ca_cnf;;
  write_if_absent "ca/v3_req.cnf" v3_req_cnf;;
  write_if_absent ("ca/" +:+ domain +:+ ".cnf") (domain_cnf domain);;
  write_if_absent ("ca/" +:+ domain +:+ ".subj") (domain_subj domain).

(** *** [generate_ca_cert] *)

Definition ca_key_command : string := "openssl genrsa -out ca/ca.key 2048".

Definition ca_cert_command : string :=
  "openssl req -new -x509 -days 36500 -key ca/ca.key -out ca/ca.crt -subj "
  +:+ dq +:+ "/C=CN/ST=State/L=City/O=TraeProxy CA/OU=TraeProxy/CN=TraeProxy Root CA"
  +:+ dq.

Definition generate_ca_cert : prog unit :=
  run_command ca_key_command true;;
  run_command ca_cert_command true;;
  mret tt.

(** *** [generate_server_cert] *)

Definition required_files (domain : string) : list string :=
  [ "ca/openssl.cnf";
    "ca/v3_req.cnf";
    "ca/" +:+ domain +:+ ".cnf";
    "ca/" +:+ domain +:+ ".subj";
    "ca/ca.key";
    "ca/ca.crt" ].

(** [for file in required_files: if not os.path.exists(file): error(...)] *)
Fixpoint check_required (paths : list string) : prog unit :=
  match paths with
  | [] => mret tt
  | file :: rest =>
      present ← os_path_exists file;
      if negb present then error ("缺少必要文件: " +:+ file)
      else check_required rest
  end.

Definition merged_cnf (openssl_cnf v3_req_cnf domain_cnf : string) : string :=
  openssl_cnf +:+ nl +:+ v3_req_cnf +:+ nl +:+ domain_cnf.

Definition leaf_key_command (domain : string) : string :=
  "openssl genrsa -out ca/" +:+ domain +:+ ".key 2048".

Definition pkcs8_command (domain : string) : string :=
  "openssl pkcs8 -topk8 -nocrypt -in ca/" +:+ domain +:+ ".key -out ca/"
  +:+ domain +:+ ".key.pkcs8".

Definition csr_command (domain temp_cnf subj : string) : string :=
  "openssl req -reqexts v3_req -sha256 -new -key ca/" +:+ domain
  +:+ ".key -out ca/" +:+ domain +:+ ".csr -config " +:+ temp_cnf
  +:+ " -subj " +:+ dq +:+ subj +:+ dq.

Definition sign_command (domain temp_cnf : string) : string :=
  "openssl x509 -req -days 365 -in ca/" +:+ domain
  +:+ ".csr -CA ca/ca.crt -CAkey ca/ca.key -CAcreateserial -out ca/"
  +:+ domain +:+ ".crt -extfile " +:+ temp_cnf +:+ " -extensions v3_req".

Definition generate_server_cert (domain : string) : prog unit :=
  check_required (required_files domain);;
  openssl_cnf ← read_text "ca/openssl.cnf";
  v3_req_cnf ← read_text "ca/v3_req.cnf";
  domain_cnf ← read_text ("ca/" +:+ domain +:+ ".cnf");
  subj_text ← read_text ("ca/" +:+ domain +:+ ".subj");
  let domain_subj := py_strip subj_text in
  temp_cnf ← create_temp_file (merged_cnf openssl_cnf v3_req_cnf domain_cnf);
  run_command (leaf_key_command domain) true;;
  run_command (pkcs8_command domain) true;;
  shutil_move ("ca/" +:+ domain +:+ ".key.pkcs8") ("ca/" +:+ domain +:+ ".key");;
  run_command (csr_command domain temp_cnf domain_subj) true;;
  run_command (sign_command domain temp_cnf) true;;
  os_remove ("ca/" +:+ domain +:+ ".csr").

(** *** [main] *)

(** The domain that [main] takes from [sys.argv]. *)
Definition domain_of_argv (argv : list string) : string :=
  match argv with
  | _ :: opt :: domain :: _ =>
      if String.eqb opt "--domain" then domain else "api.openai.com"
  | _ => "api.openai.com"
  end.

Definition main (argv : list string) : prog unit :=
  let domain := domain_of_argv argv in
  check_openssl;;
  create_default_config_files domain;;
  generate_ca_cert;;
  generate_server_cert domain.

(** *** The process *)

(** The module body sets [temp_files = []] before anything runs. *)
Definition start (fs : gmap string string) : world := World fs [] [] O.

Definition exit_status {A} (r : outcome A) : Z :=
  match r with
  | Ret _ => 0
  | Exit code => code
  | Raise _ => 1
  end.

(** [python generate_certs.py argv...]: [main] runs, then the interpreter
    runs the [atexit] handlers, on every way [main] can end, and the
    process ends with the exit status. *)
Definition script (argv : list string) (fs : gmap string string)
  : Z * world :=
  let '(r, w) := main argv (start fs) in
  let '(_, w') := cleanup_temp_files w in
  (exit_status r, w').

End Script.

(** ** A simulated environment

    A stand-in for the [openssl] tool, used to run the script on concrete
    inputs: a command fails when a file it is told to read is missing;
    otherwise it writes to its [-out] path a content that depends on the
    command line and on the time of the call, and [-CAcreateserial] leaves
    the serial file next to the CA certificate. *)

Definition sim_inputs (ws : list string) : list string :=
  omap (fun flag => flag_value flag ws)
       ["-in"; "-key"; "-CA"; "-CAkey"; "-config"; "-extfile"].

Definition sim_shell (t : nat) (command : string) (fs : gmap string string)
  : completed :=
  let ws := words command in
  if forallb (fun p => bool_decide (is_Some (fs !! p))) (sim_inputs ws)
  then
    let fs1 :=
      match flag_value "-out" ws with
      | Some out => <[out := "output " +:+ pretty t +:+ " of: " +:+ command]> fs
      | None => fs
      end in
    let fs2 :=
      if has_flag "-CAcreateserial" ws then <["ca/ca.srl" := "01"]> fs1
      else fs1 in
    Completed 0 EmptyString fs2
  else Completed 1 "No such file or directory" fs.

Definition sim_tmp_dir : string := "/tmp".

Definition sim_tmp_name (t : nat) : string := pretty t.

Definition sim_denied (path : string) : bool := false.

(** The same tool when signing fails: [openssl x509] gives status 1 and
    touches nothing. *)
Definition sim_shell_no_sign (t : nat) (command : string)
  (fs : gmap string string) : completed :=
  if has_flag "x509" (words command)
  then Completed 1 "unable to load CA private key" fs
  else sim_shell t command fs.

(** The world after the configuration was written for [domain], with no CA
    yet, and the world after the CA was issued too. *)
Definition sim_configured (domain : string) : world :=
  start (files (create_default_config_files sim_denied domain (start ∅)).2).

Definition sim_ready (domain : string) : world :=
  start (files (generate_ca_cert sim_shell (sim_configured domain)).2).

(** An [openssl] that is not installed: every command line fails. *)
Definition no_shell (t : nat) (command : string) (fs : gmap string string)
  : completed :=
  Completed 127 "openssl: not found" fs.

(** ** Definitions used to state the properties *)

(** What a run added to the trace. *)
Definition since (w w' : world) : list event :=
  drop (length (log w)) (log w').

Definition commands_of (evs : list event) : list string :=
  omap (fun e => match e with Exec c => Some c | _ => None end) evs.

(** An event that reports and changes nothing: a command handed to the shell
    (its effects are the shell's) or a line on the error stream. *)
Definition is_report (e : event) : Prop :=
  match e with
  | Exec _ | Stderr _ => True
  | _ => False
  end.

Definition is_stderr (e : event) : Prop :=
  match e with
  | Stderr _ => True
  | _ => False
  end.

(** [w'] comes after [w] with nothing but reports in between: the list of
    temporary files is the same and the trace grew by reports only. *)
Definition quiet (w w' : world) : Prop :=
  temp_files w' = temp_files w /\
  exists evs, log w' = log w ++ evs /\ Forall is_report evs.

(** [within R m]: every run of [m] takes a world to one that [R] relates to
    it, however the run ends. *)
Definition within (R : relation world) {A} (m : prog A) : Prop :=
  forall w, R w (m w).2.

(** The text of the file at a path, when it is there and decodes. *)
Definition text_of (fs : gmap string string) (path : string) : option string :=
  match fs !! path with
  | Some data => py_decode data
  | None => None
  end.

(** The lines of a text: what lies between line feeds. *)
Fixpoint lines (s : string) : list string :=
  match s with
  | EmptyString => [EmptyString]
  | String a r =>
      if Ascii.eqb a "010"%char then EmptyString :: lines r
      else
        match lines r with
        | line :: rest => String a line :: rest
        | [] => [String a EmptyString]
        end
  end.

(** The name of the section that a line of a configuration starts, when it
    is a section header: a name in square brackets, with white space around
    the brackets and the name allowed. *)
Definition section_name (line : string) : option string :=
  match py_strip line with
  | String "["%char rest =>
      match string_rev rest with
      | String "]"%char inner => Some (py_strip (string_rev inner))
      | _ => None
      end
  | _ => None
  end.

(** The sections that a configuration text defines, in the order of their
    headers. *)
Definition section_names (text : string) : list string :=
  omap section_name (lines text).

(** The first path of a list that is not on the file system. *)
Definition first_missing (fs : gmap string string) (paths : list string)
  : option string :=
  List.find (fun file => negb (bool_decide (is_Some (fs !! file)))) paths.

(** The first content that a list of defaults gives for a path. *)
Fixpoint default_for (path : string) (defaults : list (string * string))
  : option string :=
  match defaults with
  | [] => None
  | (p, c) :: rest =>
      if String.eqb p path then Some c else default_for path rest
  end.

Definition default_files (domain : string) : list (string * string) :=
  [ ("ca/openssl.cnf", openssl_cnf);
    ("ca/v3_ca.cnf", v3_ca_cnf);
    ("ca/v3_req.cnf", v3_req_cnf);
    ("ca/" +:+ domain +:+ ".cnf", domain_cnf domain);
    ("ca/" +:+ domain +:+ ".subj", domain_subj domain) ].

(** The five guarded writes of [create_default_config_files] as a loop over
    a list of defaults. *)
Fixpoint write_defaults (denied : string -> bool)
  (defaults : list (string * string)) : prog unit :=
  match defaults with
  | [] => mret tt
  | (path, content) :: rest =>
      write_if_absent denied path content;;
      write_defaults denied rest
  end.

Definition key_path (domain : string) : string := "ca/" +:+ domain +:+ ".key".

Definition pkcs8_path (domain : string) : string :=
  "ca/" +:+ domain +:+ ".key.pkcs8".

Definition csr_path (domain : string) : string := "ca/" +:+ domain +:+ ".csr".

(** What the shell gives for the four commands of a leaf issuance, each on
    the file system that the step before it left: the merged profile is at
    [temp_cnf] when the key is generated, and the PKCS#8 key, when the
    encoding command left one, has been moved over the key when the request
    is built.  [t] is the time of the first of the four calls. *)
Record leaf_results : Type := LeafResults {
  key_result : completed;
  pkcs8_result : completed;
  moved_files : gmap string string;
  csr_result : completed;
  sign_result : completed
}.

Definition leaf_chain
  (shell : nat -> string -> gmap string string -> completed)
  (domain temp_cnf merged subj : string) (t : nat)
  (fs : gmap string string) : leaf_results :=
  let key := shell t (leaf_key_command domain) (<[temp_cnf := merged]> fs) in
  let pkcs8 := shell (S t) (pkcs8_command domain) (disk key) in
  let moved :=
    match disk pkcs8 !! pkcs8_path domain with
    | Some data =>
        <[key_path domain := data]> (delete (pkcs8_path domain) (disk pkcs8))
    | None => disk pkcs8
    end in
  let csr := shell (S (S t)) (csr_command domain temp_cnf subj) moved in
  let sign := shell (S (S (S t))) (sign_command domain temp_cnf) (disk csr) in
  LeafResults key pkcs8 moved csr sign.

(** The line that [run_command] prints for a command that failed. *)
Definition failure_line (command : string) (result : completed) : event :=
  Stderr ("错误: " +:+ ("命令执行失败: " +:+ command +:+ nl +:+ stderr result)).

(** [generate_server_cert] from the point where the four files are read. *)
Definition leaf_issue
  (shell : nat -> string -> gmap string string -> completed)
  (tmp_dir : string) (tmp_name : nat -> string)
  (domain openssl_cnf v3_req_cnf domain_cnf subj_text : string) : prog unit :=
  let domain_subj := py_strip subj_text in
  temp_cnf ← create_temp_file tmp_dir tmp_name
               (merged_cnf openssl_cnf v3_req_cnf domain_cnf);
  run_command shell (leaf_key_command domain) true;;
  run_command shell (pkcs8_command domain) true;;
  shutil_move ("ca/" +:+ domain +:+ ".key.pkcs8") ("ca/" +:+ domain +:+ ".key");;
  run_command shell (csr_command domain temp_cnf domain_subj) true;;
  run_command shell (sign_command domain temp_cnf) true;;
  os_remove ("ca/" +:+ domain +:+ ".csr").

(** The steps of a leaf issuance that went through, in the order in which
    section 4.3 of the specification lists them (a to g). *)
Definition leaf_steps (domain temp_cnf merged subj : string) : list event :=
  [ MkTemp temp_cnf merged;
    Exec (leaf_key_command domain);
    Exec (pkcs8_command domain);
    Move ("ca/" +:+ domain +:+ ".key.pkcs8") ("ca/" +:+ domain +:+ ".key");
    Exec (csr_command domain temp_cnf subj);
    Exec (sign_command domain temp_cnf);
    Remove ("ca/" +:+ domain +:+ ".csr") ].

(** A command line that tells [openssl] where to take certificate extensions
    from: a configuration file, a section of it, or an extension given on the
    command line. *)
Definition names_extension_source (command : string) : bool :=
  let ws := words command in
  existsb (fun flag => has_flag flag ws)
          ["-config"; "-extensions"; "-extfile"; "-addext"; "-reqexts"].

(** The events of a whole run that went through, before the [atexit]
    cleanup: the check for the tool, the two CA commands, and the leaf
    steps. *)
Definition main_steps (domain temp_cnf merged subj : string) : list event :=
  [ Exec "openssl version"; Exec ca_key_command; Exec ca_cert_command ]
  ++ leaf_steps domain temp_cnf merged subj.

(** A shell that leaves the file at [path] alone, whatever the command. *)
Definition spares
  (shell : nat -> string -> gmap string string -> completed)
  (path : string) : Prop :=
  forall t command fs, disk (shell t command fs) !! path = fs !! path.

(** [shell] made to spare [path]: what it did to it is undone. *)
Definition sparing (path : string)
  (shell : nat -> string -> gmap string string -> completed)
  (t : nat) (command : string) (fs : gmap string string) : completed :=
  let result := shell t command fs in
  Completed (returncode result) (stderr result)
            (partial_alter (fun _ => fs !! path) path (disk result)).

(** The file at [path] holds [content] and is not a tracked temporary file,
    and this is still so later. *)
Definition untouched (path content : string) : relation world :=
  fun w w' =>
    files w !! path = Some content /\ path ∉ temp_files w ->
    files w' !! path = Some content /\ path ∉ temp_files w'.

(** ** The monad *)

Lemma bind_run {A B} (m : prog A) (f : A -> prog B) (w : world) :
  (m ≫= f) w =
  match m w with
  | (Ret a, w') => f a w'
  | (Exit c, w') => (Exit c, w')
  | (Raise e, w') => (Raise e, w')
  end.
Proof. reflexivity. Qed.

Lemma pair_eta {A B} (x : A * B) : x = (x.1, x.2).
Proof. by destruct x. Qed.

Section Within.

Context (R : relation world) `{!PreOrder R}.

Lemma within_ret {A} (a : A) : within R (mret a).
Proof. intros w. simpl. reflexivity. Qed.

Lemma within_sys_exit {A} code : within R (@sys_exit A code).
Proof. intros w. simpl. reflexivity. Qed.

Lemma within_raise {A} e : within R (@raise A e).
Proof. intros w. simpl. reflexivity. Qed.

Lemma within_bind {A B} (m : prog A) (f : A -> prog B) :
  within R m -> (forall a, within R (f a)) -> within R (m ≫= f).
Proof.
  intros Hm Hf w. rewrite bind_run. specialize (Hm w).
  destruct (m w) as [[a | c | e] w1]; simpl in *; try assumption.
  transitivity w1; [assumption | apply Hf].
Qed.

Lemma within_try_except {A} (m h : prog A) :
  within R m -> within R h -> within R (try_except m h).
Proof.
  intros Hm Hh w. unfold try_except. specialize (Hm w).
  destruct (m w) as [[a | c | e] w1]; simpl in *; try assumption;
    (transitivity w1; [assumption | apply Hh]).
Qed.

Lemma within_if {A} (b : bool) (m1 m2 : prog A) :
  within R m1 -> within R m2 -> within R (if b then m1 else m2).
Proof. destruct b; auto. Qed.

End Within.

#[global] Instance quiet_preorder : PreOrder quiet.
Proof.
  split.
  - intros w. split; [reflexivity |]. exists []. by rewrite app_nil_r.
  - intros w1 w2 w3 [Ht1 (e1 & Hl1 & Hf1)] [Ht2 (e2 & Hl2 & Hf2)]. split.
    + congruence.
    + exists (e1 ++ e2). rewrite Hl2, Hl1, <- app_assoc. split; [done |].
      by apply Forall_app.
Qed.

Lemma commands_of_app evs1 evs2 :
  commands_of (evs1 ++ evs2) = commands_of evs1 ++ commands_of evs2.
Proof. apply omap_app. Qed.

Lemma commands_of_stderr evs : Forall is_stderr evs -> commands_of evs = [].
Proof.
  induction 1 as [| [] evs Hx _ IH]; cbn in *; try done.
Qed.

Lemma commands_of_removes paths : commands_of (map Remove paths) = [].
Proof. by induction paths. Qed.

Lemma commands_of_take n evs :
  commands_of (take n evs) `prefix_of` commands_of evs.
Proof.
  rewrite <- (take_drop n evs) at 2. rewrite commands_of_app.
  by apply prefix_app_r.
Qed.

Lemma since_app (w w' : world) (evs : list event) :
  log w' = log w ++ evs -> since w w' = evs.
Proof. intros H. unfold since. rewrite H. by rewrite drop_app_length. Qed.

(** ** Steps of the script, one at a time *)

Local Arguments String.append : simpl never.

Section Steps.

Variable shell : nat -> string -> gmap string string -> completed.
Variable tmp_dir : string.
Variable tmp_name : nat -> string.
Variable denied : string -> bool.

Lemma quiet_emit_stderr text : within quiet (emit (Stderr text)).
Proof.
  intros w. split; [done |]. exists [Stderr text]. split; [done |].
  by repeat constructor.
Qed.

Lemma quiet_same_log {A} (m : prog A) :
  (forall w, temp_files (m w).2 = temp_files w /\ log (m w).2 = log w) ->
  within quiet m.
Proof.
  intros H w. destruct (H w) as [Ht Hl]. split; [done |].
  exists []. by rewrite Hl, app_nil_r.
Qed.

Lemma quiet_os_path_exists path : within quiet (os_path_exists path).
Proof. by apply quiet_same_log. Qed.

Lemma quiet_get_files : within quiet get_files.
Proof. by apply quiet_same_log. Qed.

Lemma quiet_set_files fs : within quiet (set_files fs).
Proof. by apply quiet_same_log. Qed.

Lemma quiet_subprocess_run command :
  within quiet (subprocess_run shell command).
Proof.
  intros w. split; [done |]. exists [Exec command]. split; [done |].
  by repeat constructor.
Qed.

Lemma quiet_error {A} message : within quiet (@error A message).
Proof.
  unfold error. apply within_bind; [apply _ | apply quiet_emit_stderr |].
  intros _. apply within_sys_exit, _.
Qed.

Lemma quiet_run_command command check :
  within quiet (run_command shell command check).
Proof.
  unfold run_command.
  apply within_bind; [apply _ | apply quiet_subprocess_run |].
  intros result. apply within_if; [apply quiet_error |].
  apply within_ret, _.
Qed.

Lemma quiet_write_text path content :
  within quiet (write_text denied path content).
Proof.
  unfold write_text. apply within_if; [apply within_raise, _ |].
  apply within_bind; [apply _ | apply quiet_get_files |].
  intros fs. apply quiet_set_files.
Qed.

Lemma quiet_write_if_absent path content :
  within quiet (write_if_absent denied path content).
Proof.
  unfold write_if_absent.
  apply within_bind; [apply _ | apply quiet_os_path_exists |].
  intros present. apply within_if; [apply quiet_write_text |].
  apply within_ret, _.
Qed.

Lemma quiet_check_openssl : within quiet (check_openssl shell).
Proof.
  unfold check_openssl. apply within_try_except; [apply _ | | apply quiet_error].
  apply within_bind; [apply _ | apply quiet_run_command |].
  intros _. apply within_ret, _.
Qed.

Lemma quiet_create_default_config_files domain :
  within quiet (create_default_config_files denied domain).
Proof.
  unfold create_default_config_files, os_makedirs.
  repeat (apply within_bind; [apply _ | | intros _]);
    try apply quiet_write_if_absent.
  apply within_if; [apply within_raise, _ | apply within_ret, _].
Qed.

Lemma quiet_generate_ca_cert : within quiet (generate_ca_cert shell).
Proof.
  unfold generate_ca_cert.
  repeat (apply within_bind; [apply _ | | intros _]);
    try apply quiet_run_command.
  apply within_ret, _.
Qed.

End Steps.

Section Runs.

Variable shell : nat -> string -> gmap string string -> completed.
Variable tmp_dir : string.
Variable tmp_name : nat -> string.
Variable denied : string -> bool.

Lemma error_run {A} message w :
  @error A message w =
  (Exit 1,
   World (files w) (temp_files w) (log w ++ [Stderr ("错误: " +:+ message)])
         (clock w)).
Proof. reflexivity. Qed.

(** [run_command] with [check=True]: the command is handed to the shell,
    and a non-zero status ends the script with one line of diagnostic. *)
Lemma run_command_run command w :
  let result := shell (clock w) command (files w) in
  run_command shell command true w =
  if returncode result =? 0
  then (Ret result,
        World (disk result) (temp_files w) (log w ++ [Exec command])
              (S (clock w)))
  else (Exit 1,
        World (disk result) (temp_files w)
              (log w ++ [Exec command;
                         Stderr ("错误: " +:+ ("命令执行失败: " +:+ command
                                                +:+ nl +:+ stderr result))])
              (S (clock w))).
Proof.
  intros result. unfold run_command. rewrite bind_run. simpl.
  fold result. destruct (returncode result =? 0); simpl; [done |].
  rewrite error_run. simpl. by rewrite <- app_assoc.
Qed.

Lemma check_required_run paths w :
  check_required paths w =
  match first_missing (files w) paths with
  | Some file =>
      (Exit 1,
       World (files w) (temp_files w)
             (log w ++ [Stderr ("错误: " +:+ ("缺少必要文件: " +:+ file))])
             (clock w))
  | None => (Ret tt, w)
  end.
Proof.
  induction paths as [| file rest IH]; [done |].
  simpl. rewrite bind_run. simpl.
  destruct (bool_decide (is_Some (files w !! file))); simpl; [apply IH | done].
Qed.

Lemma first_missing_None fs paths :
  first_missing fs paths = None <->
  forall file, file ∈ paths -> is_Some (fs !! file).
Proof.
  unfold first_missing. induction paths as [| p rest IH]; simpl.
  - split; [| done]. intros _ file H. by apply elem_of_nil in H.
  - destruct (bool_decide (is_Some (fs !! p))) eqn:E; simpl.
    + apply bool_decide_eq_true in E. rewrite IH. split.
      * intros H file [-> | Hin]%elem_of_cons; auto.
      * intros H file Hin. apply H. by right.
    + apply bool_decide_eq_false in E. split; [done |].
      intros H. destruct E. apply H. by left.
Qed.

Lemma first_missing_Some fs paths file :
  first_missing fs paths = Some file ->
  file ∈ paths /\ fs !! file = None.
Proof.
  unfold first_missing. intros H. apply find_some in H as [Hin Hb].
  split; [by apply list_elem_of_In |].
  apply negb_true_iff, bool_decide_eq_false in Hb.
  destruct (fs !! file) eqn:E; [| done]. destruct Hb. eauto.
Qed.

Lemma mkstemp_try_Some fuel seq fs path t :
  mkstemp_try tmp_dir tmp_name fuel seq fs = Some (path, t) ->
  fs !! path = None /\ exists name, path = temp_path tmp_dir name.
Proof.
  revert seq. induction fuel as [| fuel IH]; intros seq; simpl; [done |].
  destruct (fs !! (temp_path tmp_dir (tmp_name seq))) eqn:E.
  - apply IH.
  - intros [= <- <-]. eauto.
Qed.

Lemma create_temp_file_run content w :
  create_temp_file tmp_dir tmp_name content w =
  match mkstemp_try tmp_dir tmp_name TMP_MAX (clock w) (files w) with
  | Some (path, t) =>
      (Ret path,
       World (<[path := content]> (<[path := EmptyString]> (files w)))
             (temp_files w ++ [path]) (log w ++ [MkTemp path content]) t)
  | None =>
      (Raise FileExistsError,
       World (files w) (temp_files w) (log w) (clock w + TMP_MAX)%nat)
  end.
Proof.
  unfold create_temp_file. rewrite bind_run. unfold mkstemp.
  destruct (mkstemp_try tmp_dir tmp_name TMP_MAX (clock w) (files w))
    as [[path t] |]; done.
Qed.

(** [cleanup_temp_files] *)

Lemma lookup_foldr_delete (fs : gmap string string) paths path :
  foldr delete fs paths !! path =
  if decide (path ∈ paths) then None else fs !! path.
Proof.
  induction paths as [| p rest IH].
  - case_decide as H; [by apply elem_of_nil in H | reflexivity].
  - cbn [foldr]. destruct (decide (p = path)) as [-> | Hne].
    + rewrite lookup_delete_eq.
      destruct (decide (path ∈ path :: rest)) as [_ | H]; [done |].
      destruct H. by left.
    + rewrite lookup_delete_ne by done. rewrite IH.
      destruct (decide (path ∈ rest)) as [Hin | Hout];
        destruct (decide (path ∈ p :: rest)) as [Hin' | Hout']; try done.
      * destruct Hout'. by right.
      * apply elem_of_cons in Hin' as [-> | Hin']; done.
Qed.

Lemma cleanup_loop_run paths w :
  exists removed,
    cleanup_loop paths w =
      (Ret tt,
       World (foldr delete (files w) paths) (temp_files w)
             (log w ++ map Remove removed) (clock w))
    /\ removed ⊆ paths.
Proof.
  revert w. induction paths as [| path rest IH]; intros w.
  - exists []. simpl. rewrite app_nil_r. by destruct w.
  - simpl. rewrite bind_run. unfold try_except, os_unlink.
    destruct (files w !! path) as [c |] eqn:E.
    + edestruct IH as (removed & -> & Hsub). exists (path :: removed).
      simpl. rewrite <- app_assoc.
      split; [| intros x [-> | Hx]%elem_of_cons; [by left | right; auto]].
      f_equal. f_equal. clear. induction rest as [| p rest IH]; simpl.
      * done.
      * rewrite IH. apply delete_delete.
    + simpl. edestruct IH as (removed & -> & Hsub). exists removed.
      split; [| intros x Hx; right; auto]. f_equal. f_equal.
      symmetry. apply delete_id. rewrite lookup_foldr_delete.
      by destruct (decide (path ∈ rest)).
Qed.

Lemma cleanup_loop_nothing_left paths w :
  (forall path, path ∈ paths -> files w !! path = None) ->
  cleanup_loop paths w = (Ret tt, w).
Proof.
  induction paths as [| path rest IH]; intros H; [done |].
  simpl. rewrite bind_run. unfold try_except, os_unlink.
  rewrite H by (by left). simpl. apply IH. intros p Hp. apply H. by right.
Qed.

(** [generate_server_cert] *)

Lemma required_files_present fs domain :
  first_missing fs (required_files domain) = None ->
  exists b l s j,
    fs !! "ca/openssl.cnf" = Some b /\
    fs !! "ca/v3_req.cnf" = Some l /\
    fs !! ("ca/" +:+ domain +:+ ".cnf") = Some s /\
    fs !! ("ca/" +:+ domain +:+ ".subj") = Some j.
Proof.
  intros H. pose proof (proj1 (first_missing_None _ _) H) as Hall.
  destruct (Hall "ca/openssl.cnf") as [b Hb]; [by left |].
  destruct (Hall "ca/v3_req.cnf") as [l Hl]; [right; by left |].
  destruct (Hall ("ca/" +:+ domain +:+ ".cnf")) as [s Hs];
    [do 2 right; by left |].
  destruct (Hall ("ca/" +:+ domain +:+ ".subj")) as [j Hj];
    [do 3 right; by left |].
  by exists b, l, s, j.
Qed.

Lemma text_of_lookup fs path data :
  fs !! path = Some data -> text_of fs path = py_decode data.
Proof. intros H. unfold text_of. by rewrite H. Qed.

(** After the pre-flight check, the four files are read in order; the first
    that does not decode ends the run with [UnicodeDecodeError]. *)
Lemma leaf_after_reads domain w :
  first_missing (files w) (required_files domain) = None ->
  generate_server_cert shell tmp_dir tmp_name domain w =
  match text_of (files w) "ca/openssl.cnf" with
  | None => (Raise UnicodeDecodeError, w)
  | Some b =>
      match text_of (files w) "ca/v3_req.cnf" with
      | None => (Raise UnicodeDecodeError, w)
      | Some l =>
          match text_of (files w) ("ca/" +:+ domain +:+ ".cnf") with
          | None => (Raise UnicodeDecodeError, w)
          | Some s =>
              match text_of (files w) ("ca/" +:+ domain +:+ ".subj") with
              | None => (Raise UnicodeDecodeError, w)
              | Some j => leaf_issue shell tmp_dir tmp_name domain b l s j w
              end
          end
      end
  end.
Proof.
  intros Em.
  destruct (required_files_present _ _ Em)
    as (b0 & l0 & s0 & j0 & Hb & Hl & Hs & Hj).
  rewrite (text_of_lookup _ _ _ Hb), (text_of_lookup _ _ _ Hl),
    (text_of_lookup _ _ _ Hs), (text_of_lookup _ _ _ Hj).
  unfold generate_server_cert.
  rewrite bind_run, check_required_run, Em.
  rewrite bind_run; unfold read_text at 1; rewrite Hb.
  destruct (py_decode b0) as [b |]; [| done].
  rewrite bind_run; unfold read_text at 1; rewrite Hl.
  destruct (py_decode l0) as [l |]; [| done].
  rewrite bind_run; unfold read_text at 1; rewrite Hs.
  destruct (py_decode s0) as [s |]; [| done].
  rewrite bind_run; unfold read_text at 1; rewrite Hj.
  destruct (py_decode j0) as [j |]; [| done].
  reflexivity.
Qed.

Lemma leaf_issue_no_name domain b l s j w :
  mkstemp_try tmp_dir tmp_name TMP_MAX (clock w) (files w) = None ->
  leaf_issue shell tmp_dir tmp_name domain b l s j w =
  (Raise FileExistsError,
   World (files w) (temp_files w) (log w) (clock w + TMP_MAX)%nat).
Proof.
  intros Ht. unfold leaf_issue. cbn zeta.
  by rewrite bind_run, create_temp_file_run, Ht.
Qed.

(** The run from the temporary file on, as a function of what the shell
    gives for the four commands. *)
Lemma leaf_issue_run domain b l s j w temp_cnf t :
  mkstemp_try tmp_dir tmp_name TMP_MAX (clock w) (files w) = Some (temp_cnf, t) ->
  let merged := merged_cnf b l s in
  let subj := py_strip j in
  let c := leaf_chain shell domain temp_cnf merged subj t (files w) in
  let temps := temp_files w ++ [temp_cnf] in
  let steps := leaf_steps domain temp_cnf merged subj in
  leaf_issue shell tmp_dir tmp_name domain b l s j w =
  if negb (returncode (key_result c) =? 0) then
    (Exit 1,
     World (disk (key_result c)) temps
           (log w ++ take 2 steps
            ++ [failure_line (leaf_key_command domain) (key_result c)])
           (S t))
  else if negb (returncode (pkcs8_result c) =? 0) then
    (Exit 1,
     World (disk (pkcs8_result c)) temps
           (log w ++ take 3 steps
            ++ [failure_line (pkcs8_command domain) (pkcs8_result c)])
           (S (S t)))
  else
    match disk (pkcs8_result c) !! pkcs8_path domain with
    | None =>
        (Raise (FileNotFoundError (pkcs8_path domain)),
         World (disk (pkcs8_result c)) temps (log w ++ take 3 steps)
               (S (S t)))
    | Some _ =>
        if negb (returncode (csr_result c) =? 0) then
          (Exit 1,
           World (disk (csr_result c)) temps
                 (log w ++ take 5 steps
                  ++ [failure_line (csr_command domain temp_cnf subj)
                                   (csr_result c)])
                 (S (S (S t))))
        else if negb (returncode (sign_result c) =? 0) then
          (Exit 1,
           World (disk (sign_result c)) temps
                 (log w ++ take 6 steps
                  ++ [failure_line (sign_command domain temp_cnf)
                                   (sign_result c)])
                 (S (S (S (S t)))))
        else
          match disk (sign_result c) !! csr_path domain with
          | None =>
              (Raise (FileNotFoundError (csr_path domain)),
               World (disk (sign_result c)) temps (log w ++ take 6 steps)
                     (S (S (S (S t)))))
          | Some _ =>
              (Ret tt,
               World (delete (csr_path domain) (disk (sign_result c))) temps
                     (log w ++ steps) (S (S (S (S t)))))
          end
    end.
Proof.
  intros Ht. cbn zeta. unfold leaf_issue. cbn zeta.
  rewrite bind_run, create_temp_file_run, Ht.
  unfold leaf_chain, key_path, pkcs8_path, csr_path, failure_line.
  cbn [key_result pkcs8_result moved_files csr_result sign_result].
  rewrite insert_insert_eq.
  rewrite bind_run, run_command_run. cbn [files temp_files log clock].
  destruct (returncode _ =? 0); cbn [negb];
    [| by rewrite <- !app_assoc].
  rewrite bind_run, run_command_run. cbn [files temp_files log clock].
  destruct (returncode _ =? 0); cbn [negb];
    [| by rewrite <- !app_assoc].
  rewrite bind_run. unfold shutil_move at 1.
  cbn [files temp_files log clock].
  destruct (disk _ !! ("ca/" +:+ domain +:+ ".key.pkcs8")) as [data |];
    [| by rewrite <- !app_assoc].
  rewrite bind_run, run_command_run. cbn [files temp_files log clock].
  destruct (returncode _ =? 0); cbn [negb];
    [| by rewrite <- !app_assoc].
  rewrite bind_run, run_command_run. cbn [files temp_files log clock].
  destruct (returncode _ =? 0); cbn [negb];
    [| by rewrite <- !app_assoc].
  unfold os_remove, os_unlink. cbn [files temp_files log clock].
  destruct (disk _ !! ("ca/" +:+ domain +:+ ".csr")) as [csr |];
    by rewrite <- !app_assoc.
Qed.

(** A run of [generate_server_cert] went through the first [n] of the seven
    steps, and ended by returning after all seven, by [error] after a line
    on the error stream, or by an exception with no line. *)
Lemma leaf_run_outcome domain w r w' :
  generate_server_cert shell tmp_dir tmp_name domain w = (r, w') ->
  exists n name merged subj errs,
    log w' =
      log w
      ++ take n (leaf_steps domain (temp_path tmp_dir name) merged subj)
      ++ errs /\
    temp_files w' =
      temp_files w
      ++ match n with O => [] | S _ => [temp_path tmp_dir name] end /\
    (n = 0 \/ 2 <= n <= 7)%nat /\
    ((r = Ret tt /\ n = 7%nat /\ errs = []) \/
     (r = Exit 1 /\ (n < 7)%nat /\ exists text, errs = [Stderr text]) \/
     (exists e, r = Raise e /\ (n < 7)%nat /\ errs = [])) /\
    match n with
    | O =>
        (exists file,
           first_missing (files w) (required_files domain) = Some file /\
           r = Exit 1) \/
        (first_missing (files w) (required_files domain) = None /\
         r = Raise UnicodeDecodeError /\ w' = w /\
         (text_of (files w) "ca/openssl.cnf" = None \/
          text_of (files w) "ca/v3_req.cnf" = None \/
          text_of (files w) ("ca/" +:+ domain +:+ ".cnf") = None \/
          text_of (files w) ("ca/" +:+ domain +:+ ".subj") = None)) \/
        (first_missing (files w) (required_files domain) = None /\
         r = Raise FileExistsError /\ files w' = files w)
    | S _ =>
        exists b l s j,
          first_missing (files w) (required_files domain) = None /\
          text_of (files w) "ca/openssl.cnf" = Some b /\
          text_of (files w) "ca/v3_req.cnf" = Some l /\
          text_of (files w) ("ca/" +:+ domain +:+ ".cnf") = Some s /\
          text_of (files w) ("ca/" +:+ domain +:+ ".subj") = Some j /\
          files w !! temp_path tmp_dir name = None /\
          merged = merged_cnf b l s /\ subj = py_strip j
    end.
Proof.
  intros H.
  assert (Hm : (exists file,
                  first_missing (files w) (required_files domain) = Some file)
               \/ first_missing (files w) (required_files domain) = None)
    by (destruct (first_missing _ _); eauto).
  destruct Hm as [[file Em] | Em].
  { unfold generate_server_cert in H.
    rewrite bind_run, check_required_run, Em in H. injection H as <- <-.
    exists O, EmptyString, EmptyString, EmptyString,
      [Stderr ("错误: " +:+ ("缺少必要文件: " +:+ file))].
    cbn. rewrite app_nil_r. split_and!; [done | done | lia | | eauto].
    right. left. split_and!; [done | lia | eauto]. }
  rewrite (leaf_after_reads _ _ Em) in H.
  assert (Hdecode : forall e : exn, e = UnicodeDecodeError ->
    (text_of (files w) "ca/openssl.cnf" = None \/
     text_of (files w) "ca/v3_req.cnf" = None \/
     text_of (files w) ("ca/" +:+ domain +:+ ".cnf") = None \/
     text_of (files w) ("ca/" +:+ domain +:+ ".subj") = None) ->
    (Raise e, w) = (r, w') ->
    exists n name merged subj errs,
      log w' =
        log w
        ++ take n (leaf_steps domain (temp_path tmp_dir name) merged subj)
        ++ errs /\
      temp_files w' =
        temp_files w
        ++ match n with O => [] | S _ => [temp_path tmp_dir name] end /\
      (n = 0 \/ 2 <= n <= 7)%nat /\
      ((r = Ret tt /\ n = 7%nat /\ errs = []) \/
       (r = Exit 1 /\ (n < 7)%nat /\ exists text, errs = [Stderr text]) \/
       (exists e, r = Raise e /\ (n < 7)%nat /\ errs = [])) /\
      match n with
      | O =>
          (exists file,
             first_missing (files w) (required_files domain) = Some file /\
             r = Exit 1) \/
          (first_missing (files w) (required_files domain) = None /\
           r = Raise UnicodeDecodeError /\ w' = w /\
           (text_of (files w) "ca/openssl.cnf" = None \/
            text_of (files w) "ca/v3_req.cnf" = None \/
            text_of (files w) ("ca/" +:+ domain +:+ ".cnf") = None \/
            text_of (files w) ("ca/" +:+ domain +:+ ".subj") = None)) \/
          (first_missing (files w) (required_files domain) = None /\
           r = Raise FileExistsError /\ files w' = files w)
      | S _ =>
          exists b l s j,
            first_missing (files w) (required_files domain) = None /\
            text_of (files w) "ca/openssl.cnf" = Some b /\
            text_of (files w) "ca/v3_req.cnf" = Some l /\
            text_of (files w) ("ca/" +:+ domain +:+ ".cnf") = Some s /\
            text_of (files w) ("ca/" +:+ domain +:+ ".subj") = Some j /\
            files w !! temp_path tmp_dir name = None /\
            merged = merged_cnf b l s /\ subj = py_strip j
      end).
  { intros e -> Hnone [= <- <-].
    exists O, EmptyString, EmptyString, EmptyString, [].
    cbn. rewrite !app_nil_r. split_and!; [done | done | lia | |].
    - do 2 right. eexists. split_and!; [done | lia | done].
    - right. left. done. }
  assert (Hopt : forall o : option string, o = None \/ exists x, o = Some x)
    by (intros []; eauto).
  destruct (Hopt (text_of (files w) "ca/openssl.cnf")) as [Hb | [b Hb]];
    rewrite Hb in H; [apply (Hdecode _ eq_refl); auto |].
  destruct (Hopt (text_of (files w) "ca/v3_req.cnf")) as [Hl | [l Hl]];
    rewrite Hl in H; [apply (Hdecode _ eq_refl); auto |].
  destruct (Hopt (text_of (files w) ("ca/" +:+ domain +:+ ".cnf")))
    as [Hs | [s Hs]];
    rewrite Hs in H; [apply (Hdecode _ eq_refl); auto |].
  destruct (Hopt (text_of (files w) ("ca/" +:+ domain +:+ ".subj")))
    as [Hj | [j Hj]];
    rewrite Hj in H; [apply (Hdecode _ eq_refl); auto |].
  clear Hdecode Hopt.
  destruct (mkstemp_try tmp_dir tmp_name TMP_MAX (clock w) (files w))
    as [[temp_cnf t] |] eqn:Et.
  2:{ rewrite (leaf_issue_no_name _ _ _ _ _ _ Et) in H. injection H as <- <-.
      exists O, EmptyString, EmptyString, EmptyString, [].
      cbn. rewrite !app_nil_r. split_and!; [done | done | lia | |].
      - do 2 right. eexists. split_and!; [done | lia | done].
      - do 2 right. done. }
  rewrite (leaf_issue_run _ _ _ _ _ _ _ _ Et) in H. cbn zeta in H.
  apply mkstemp_try_Some in Et as [Hfresh [name ->]].
  assert (Hstop : forall (n : nat) (errs : list event),
    (2 <= n <= 7)%nat ->
    temp_files w' = temp_files w ++ [temp_path tmp_dir name] ->
    log w' =
      log w
      ++ take n (leaf_steps domain (temp_path tmp_dir name) (merged_cnf b l s)
                            (py_strip j))
      ++ errs ->
    ((r = Ret tt /\ n = 7%nat /\ errs = []) \/
     (r = Exit 1 /\ (n < 7)%nat /\ exists text, errs = [Stderr text]) \/
     (exists e, r = Raise e /\ (n < 7)%nat /\ errs = [])) ->
    exists n name merged subj errs,
      log w' =
        log w
        ++ take n (leaf_steps domain (temp_path tmp_dir name) merged subj)
        ++ errs /\
      temp_files w' =
        temp_files w
        ++ match n with O => [] | S _ => [temp_path tmp_dir name] end /\
      (n = 0 \/ 2 <= n <= 7)%nat /\
      ((r = Ret tt /\ n = 7%nat /\ errs = []) \/
       (r = Exit 1 /\ (n < 7)%nat /\ exists text, errs = [Stderr text]) \/
       (exists e, r = Raise e /\ (n < 7)%nat /\ errs = [])) /\
      match n with
      | O =>
          (exists file,
             first_missing (files w) (required_files domain) = Some file /\
             r = Exit 1) \/
          (first_missing (files w) (required_files domain) = None /\
           r = Raise UnicodeDecodeError /\ w' = w /\
           (text_of (files w) "ca/openssl.cnf" = None \/
            text_of (files w) "ca/v3_req.cnf" = None \/
            text_of (files w) ("ca/" +:+ domain +:+ ".cnf") = None \/
            text_of (files w) ("ca/" +:+ domain +:+ ".subj") = None)) \/
          (first_missing (files w) (required_files domain) = None /\
           r = Raise FileExistsError /\ files w' = files w)
      | S _ =>
          exists b l s j,
            first_missing (files w) (required_files domain) = None /\
            text_of (files w) "ca/openssl.cnf" = Some b /\
            text_of (files w) "ca/v3_req.cnf" = Some l /\
            text_of (files w) ("ca/" +:+ domain +:+ ".cnf") = Some s /\
            text_of (files w) ("ca/" +:+ domain +:+ ".subj") = Some j /\
            files w !! temp_path tmp_dir name = None /\
            merged = merged_cnf b l s /\ subj = py_strip j
      end).
  { intros n errs Hn Ht Hlog Hr.
    exists n, name, (merged_cnf b l s), (py_strip j), errs.
    split_and!; [done | by destruct n; [lia |] | lia | done |].
    destruct n; [lia |]. by exists b, l, s, j. }
  unfold failure_line in H.
  destruct (returncode _ =? 0); cbn [negb] in H.
  2:{ injection H as <- <-. eapply (Hstop 2%nat); cbn;
        [lia | done | reflexivity | right; left; split_and!; [done | lia | eauto]]. }
  destruct (returncode _ =? 0); cbn [negb] in H.
  2:{ injection H as <- <-. eapply (Hstop 3%nat); cbn;
        [lia | done | reflexivity | right; left; split_and!; [done | lia | eauto]]. }
  destruct (disk _ !! pkcs8_path domain).
  2:{ injection H as <- <-. eapply (Hstop 3%nat []); cbn;
        [lia | done | reflexivity |
         do 2 right; eexists; split_and!; [done | lia | done]]. }
  destruct (returncode _ =? 0); cbn [negb] in H.
  2:{ injection H as <- <-. eapply (Hstop 5%nat); cbn;
        [lia | done | reflexivity | right; left; split_and!; [done | lia | eauto]]. }
  destruct (returncode _ =? 0); cbn [negb] in H.
  2:{ injection H as <- <-. eapply (Hstop 6%nat); cbn;
        [lia | done | reflexivity | right; left; split_and!; [done | lia | eauto]]. }
  destruct (disk _ !! csr_path domain).
  2:{ injection H as <- <-. eapply (Hstop 6%nat []); cbn;
        [lia | done | reflexivity |
         do 2 right; eexists; split_and!; [done | lia | done]]. }
  injection H as <- <-. eapply (Hstop 7%nat []); cbn;
    [lia | done | reflexivity | by left].
Qed.

(** With the required files there and decodable, the run is the issuance
    on their texts. *)
Lemma leaf_reads_done domain w b l s j :
  first_missing (files w) (required_files domain) = None ->
  text_of (files w) "ca/openssl.cnf" = Some b ->
  text_of (files w) "ca/v3_req.cnf" = Some l ->
  text_of (files w) ("ca/" +:+ domain +:+ ".cnf") = Some s ->
  text_of (files w) ("ca/" +:+ domain +:+ ".subj") = Some j ->
  generate_server_cert shell tmp_dir tmp_name domain w
  = leaf_issue shell tmp_dir tmp_name domain b l s j w.
Proof.
  intros Em Hb Hl Hs Hj. by rewrite (leaf_after_reads _ _ Em), Hb, Hl, Hs, Hj.
Qed.

(** A run that returns has read the four texts, found a temporary name and
    had status zero from each of the four commands; its file system is the
    one that signing left, without the request file. *)
Lemma leaf_returned domain w w' :
  generate_server_cert shell tmp_dir tmp_name domain w = (Ret tt, w') ->
  exists temp_cnf t b l s j,
    let c := leaf_chain shell domain temp_cnf (merged_cnf b l s) (py_strip j)
               t (files w) in
    first_missing (files w) (required_files domain) = None /\
    text_of (files w) "ca/openssl.cnf" = Some b /\
    text_of (files w) "ca/v3_req.cnf" = Some l /\
    text_of (files w) ("ca/" +:+ domain +:+ ".cnf") = Some s /\
    text_of (files w) ("ca/" +:+ domain +:+ ".subj") = Some j /\
    mkstemp_try tmp_dir tmp_name TMP_MAX (clock w) (files w)
      = Some (temp_cnf, t) /\
    returncode (key_result c) = 0 /\
    returncode (pkcs8_result c) = 0 /\
    returncode (csr_result c) = 0 /\
    returncode (sign_result c) = 0 /\
    files w' = delete (csr_path domain) (disk (sign_result c)) /\
    log w' = log w ++ leaf_steps domain temp_cnf (merged_cnf b l s) (py_strip j).
Proof.
  intros H.
  assert (Em : first_missing (files w) (required_files domain) = None).
  { destruct (first_missing (files w) (required_files domain)) as [file |] eqn:E;
      [| done].
    unfold generate_server_cert in H.
    by rewrite bind_run, check_required_run, E in H. }
  rewrite (leaf_after_reads _ _ Em) in H.
  destruct (text_of (files w) "ca/openssl.cnf") as [b |] eqn:Hb; [| done].
  destruct (text_of (files w) "ca/v3_req.cnf") as [l |] eqn:Hl; [| done].
  destruct (text_of (files w) ("ca/" +:+ domain +:+ ".cnf")) as [s |] eqn:Hs;
    [| done].
  destruct (text_of (files w) ("ca/" +:+ domain +:+ ".subj")) as [j |] eqn:Hj;
    [| done].
  destruct (mkstemp_try tmp_dir tmp_name TMP_MAX (clock w) (files w))
    as [[temp_cnf t] |] eqn:Et;
    [| by rewrite (leaf_issue_no_name _ _ _ _ _ _ Et) in H].
  rewrite (leaf_issue_run _ _ _ _ _ _ _ _ Et) in H. cbn zeta in H.
  exists temp_cnf, t, b, l, s, j. cbn zeta.
  set (c := leaf_chain shell domain temp_cnf (merged_cnf b l s) (py_strip j)
              t (files w)) in *.
  destruct (Z.eqb_spec (returncode (key_result c)) 0) as [Hkey |];
    cbn [negb] in H; [| done].
  destruct (Z.eqb_spec (returncode (pkcs8_result c)) 0) as [Hpkcs8 |];
    cbn [negb] in H; [| done].
  destruct (disk (pkcs8_result c) !! pkcs8_path domain) as [data |] eqn:Hdata;
    [| done].
  destruct (Z.eqb_spec (returncode (csr_result c)) 0) as [Hcsr |];
    cbn [negb] in H; [| done].
  destruct (Z.eqb_spec (returncode (sign_result c)) 0) as [Hsign |];
    cbn [negb] in H; [| done].
  destruct (disk (sign_result c) !! csr_path domain) as [csr |] eqn:Hfile;
    [| done].
  injection H as <-. cbn [files temp_files log].
  split_and!; done.
Qed.

Lemma leaf_steps_mktemp n domain temp_cnf merged subj path content :
  MkTemp path content ∈ take n (leaf_steps domain temp_cnf merged subj) ->
  path = temp_cnf /\ content = merged /\ (1 <= n)%nat.
Proof.
  destruct n as [| n]; cbn; [by intros ?%elem_of_nil |].
  intros [H | H]%elem_of_cons; [inversion H; split_and!; [done | done | lia] |].
  exfalso. do 6 (destruct n as [| n]; cbn in H;
    [repeat (apply elem_of_cons in H as [H | H]; [discriminate |]);
     by apply elem_of_nil in H |]).
  rewrite take_nil in H.
  repeat (apply elem_of_cons in H as [H | H]; [discriminate |]).
  by apply elem_of_nil in H.
Qed.

Lemma leaf_steps_remove n domain temp_cnf merged subj path :
  (n <= 7)%nat ->
  Remove path ∈ take n (leaf_steps domain temp_cnf merged subj) ->
  path = "ca/" +:+ domain +:+ ".csr" /\ n = 7%nat.
Proof.
  intros Hn H.
  do 7 (destruct n as [| n]; cbn in H;
    [repeat (apply elem_of_cons in H as [H | H]; [discriminate |]);
     by apply elem_of_nil in H |]).
  destruct n; [| lia]. cbn in H.
  repeat (apply elem_of_cons in H as [H | H];
          [first [discriminate | by inversion H] |]).
  by apply elem_of_nil in H.
Qed.

Lemma report_not_mktemp evs path content :
  Forall is_report evs -> MkTemp path content ∉ evs.
Proof.
  intros Hf Hin. rewrite Forall_forall in Hf. by apply Hf in Hin.
Qed.

Lemma report_not_remove evs path :
  Forall is_report evs -> Remove path ∉ evs.
Proof.
  intros Hf Hin. rewrite Forall_forall in Hf. by apply Hf in Hin.
Qed.

Lemma stderr_is_report evs : Forall is_stderr evs -> Forall is_report evs.
Proof. intros H. eapply Forall_impl; [exact H |]. by intros []. Qed.

Lemma string_rev_empty (s : string) : string_rev s = EmptyString -> s = EmptyString.
Proof.
  unfold string_rev. intros H.
  apply (f_equal list_ascii_of_string) in H.
  rewrite list_ascii_of_string_of_list_ascii in H. cbn in H.
  apply (f_equal (@rev ascii)) in H. rewrite rev_involutive in H. cbn in H.
  by destruct s.
Qed.

Lemma temp_path_absolute name :
  is_absolute tmp_dir = true -> is_absolute (temp_path tmp_dir name) = true.
Proof.
  unfold temp_path, path_join. intros Habs.
  change ("tmp" +:+ name) with (String "t" (String "m" (String "p" name))).
  cbn iota.
  destruct tmp_dir as [| a d]; [discriminate |].
  assert (a = "/"%char) as ->
    by (destruct a as [[] [] [] [] [] [] [] []]; (discriminate || reflexivity)).
  destruct (string_rev (String "/" d)) as [| c r] eqn:E;
    [apply string_rev_empty in E; discriminate |].
  destruct c as [[] [] [] [] [] [] [] []]; reflexivity.
Qed.

Lemma tmp_is_not_csr name domain :
  is_absolute tmp_dir = true ->
  temp_path tmp_dir name <> "ca/" +:+ domain +:+ ".csr".
Proof.
  intros Habs Heq. apply (temp_path_absolute name) in Habs.
  rewrite Heq in Habs. discriminate.
Qed.

(** Until [generate_server_cert] starts, [main] only runs commands and
    prints. *)
Lemma bind_quiet {A B} (m : prog A) (f : A -> prog B) w r w' :
  within quiet m ->
  (m ≫= f) w = (r, w') ->
  (quiet w w' /\ forall b, r <> Ret b) \/
  (exists a wm, quiet w wm /\ f a wm = (r, w')).
Proof.
  intros Hm. rewrite bind_run. specialize (Hm w).
  destruct (m w) as [[a | c | e] wm]; simpl in Hm.
  - right. eauto.
  - intros [= <- <-]. by left.
  - intros [= <- <-]. by left.
Qed.

Lemma main_run argv fs r w' :
  main shell tmp_dir tmp_name denied argv (start fs) = (r, w') ->
  (quiet (start fs) w' /\ r <> Ret tt) \/
  (exists wm,
      quiet (start fs) wm /\
      generate_server_cert shell tmp_dir tmp_name (domain_of_argv argv) wm = (r, w')).
Proof.
  unfold main. cbn zeta. intros H.
  apply bind_quiet in H as [[Hq Hr] | (_ & w1 & Hq1 & H)];
    [by left | | apply quiet_check_openssl].
  apply bind_quiet in H as [[Hq Hr] | (_ & w2 & Hq2 & H)];
    [left; split; [by transitivity w1 | done] | |
     apply quiet_create_default_config_files].
  apply bind_quiet in H as [[Hq Hr] | (_ & w3 & Hq3 & H)];
    [left; split; [transitivity w1; [done |]; by transitivity w2 | done] | |
     apply quiet_generate_ca_cert].
  right. exists w3. split; [| done].
  transitivity w1; [done |]. by transitivity w2.
Qed.

(** The shape of the world when [main] has ended, whichever way. *)
Lemma main_shape argv fs r w' :
  main shell tmp_dir tmp_name denied argv (start fs) = (r, w') ->
  exists reports n name merged subj errs,
    let temp_cnf := temp_path tmp_dir name in
    Forall is_report reports /\
    Forall is_stderr errs /\
    log w' =
      reports
      ++ take n (leaf_steps (domain_of_argv argv) temp_cnf merged subj)
      ++ errs /\
    temp_files w' = match n with O => [] | S _ => [temp_cnf] end /\
    (n <= 7)%nat /\
    (r = Ret tt <-> n = 7%nat).
Proof.
  intros H. apply main_run in H as [[[Ht (evs & Hl & Hf)] Hr] | (wm & Hq & H)].
  - exists evs, O, EmptyString, EmptyString, EmptyString, [].
    cbn in *. rewrite app_nil_r. split_and!; try done. lia.
  - destruct Hq as [Ht (evs & Hl & Hf)]. cbn in Ht, Hl.
    apply leaf_run_outcome in H
      as (n & name & merged & subj & errs & Hl' & Ht' & Hn & Hr & _).
    exists evs, n, name, merged, subj, errs.
    cbn zeta. rewrite Hl', Hl, Ht', Ht. split_and!; [done | | done | done | lia |].
    + destruct Hr as [(_ & _ & ->) | [(_ & _ & text & ->) | (e & _ & _ & ->)]];
        by repeat constructor.
    + destruct Hr as [(-> & -> & _) | [(-> & Hlt & _) | (e & -> & Hlt & _)]];
        split; try done; lia.
Qed.

End Runs.

(** ** Temporary files *)

(** C8.  [cleanup_temp_files] never raises: from every world, with any list
    of tracked paths (paths listed twice, paths whose file is already gone),
    it returns normally.  Afterwards no tracked path has a file, whatever
    happened to the paths before it in the list, every other file is as it
    was, and a second cleanup returns normally and changes nothing. *)
Theorem cleanup_never_raises (w : world) :
  exists w',
    cleanup_temp_files w = (Ret tt, w') /\
    (forall path, path ∈ temp_files w -> files w' !! path = None) /\
    (forall path, path ∉ temp_files w -> files w' !! path = files w !! path) /\
    temp_files w' = temp_files w /\
    cleanup_temp_files w' = (Ret tt, w').
Proof.
  destruct (cleanup_loop_run (temp_files w) w) as (removed & Hrun & _).
  eexists. split; [exact Hrun |]. cbn.
  assert (Hgone : forall path, path ∈ temp_files w ->
            foldr delete (files w) (temp_files w) !! path = None).
  { intros path Hin. rewrite lookup_foldr_delete. by rewrite decide_True. }
  split_and!; [done | | done |].
  - intros path Hout. rewrite lookup_foldr_delete. by rewrite decide_False.
  - unfold cleanup_temp_files. cbn. by apply cleanup_loop_nothing_left.
Qed.

(** A list with a path twice and a path whose file is gone: the files that
    are there are removed, and nothing is raised. *)
Example cleanup_with_missing_and_repeated :
  let w := World (<["/tmp/a" := "1"]> (<["/tmp/b" := "2"]> (<["keep" := "3"]> ∅)))
                 ["/tmp/a"; "/tmp/gone"; "/tmp/a"; "/tmp/b"] [] O in
  (cleanup_temp_files w).1 = Ret tt /\
  map_to_list (files (cleanup_temp_files w).2) = [("keep", "3")] /\
  log (cleanup_temp_files w).2 = [Remove "/tmp/a"; Remove "/tmp/b"].
Proof. vm_compute. done. Qed.

(** C7.  When the process has ended, no temporary file that was created
    during the run is on the file system: for every way [main] can end
    (return, [sys.exit] from [error], an exception), every path of a [MkTemp]
    event of the trace has no file once the [atexit] handler has run. *)
Theorem temp_files_gone_at_exit
  (shell : nat -> string -> gmap string string -> completed)
  (tmp_dir : string) (tmp_name : nat -> string) (denied : string -> bool)
  (argv : list string) (fs : gmap string string) (path content : string) :
  let final := (script shell tmp_dir tmp_name denied argv fs).2 in
  MkTemp path content ∈ log final -> files final !! path = None.
Proof.
  cbn zeta. unfold script.
  destruct (main shell tmp_dir tmp_name denied argv (start fs)) as [r w1] eqn:Hmain.
  unfold cleanup_temp_files.
  destruct (cleanup_loop_run (temp_files w1) w1) as (removed & -> & _). cbn.
  apply main_shape in Hmain
    as (reports & n & name & merged & subj & errs & Hrep & Herr & -> & -> & _).
  intros Hin. rewrite lookup_foldr_delete.
  rewrite <- !app_assoc in Hin.
  apply elem_of_app in Hin as [Hin | Hin];
    [by apply report_not_mktemp in Hin |].
  apply elem_of_app in Hin as [Hin | Hin].
  - apply leaf_steps_mktemp in Hin as (-> & _ & Hn).
    destruct n; [lia |]. rewrite decide_True; [done | by left].
  - apply elem_of_app in Hin as [Hin | Hin].
    + apply (report_not_mktemp errs) in Hin; [done |].
      by apply stderr_is_report.
    + apply list_elem_of_fmap in Hin as (p & Hp & _). discriminate.
Qed.

Lemma temp_files_gone_at_exit_witness :
  files (script sim_shell sim_tmp_dir sim_tmp_name sim_denied ["generate_certs.py"] ∅).2
    !! "/tmp/tmp3" = None.
Proof.
  eapply (temp_files_gone_at_exit sim_shell sim_tmp_dir sim_tmp_name sim_denied
            ["generate_certs.py"] ∅ "/tmp/tmp3" _).
  vm_compute. do 3 apply list_elem_of_further. apply list_elem_of_here.
Defined.

(** The same on a run that [error] ends: signing fails, the process ends
    with status 1, and the merged profile is gone. *)
Example temp_file_gone_after_abort :
  let out := script sim_shell_no_sign sim_tmp_dir sim_tmp_name sim_denied
               ["generate_certs.py"; "--domain"; "example.com"] ∅ in
  out.1 = 1 /\
  (exists content, MkTemp "/tmp/tmp3" content ∈ log out.2) /\
  files out.2 !! "/tmp/tmp3" = None.
Proof.
  cbn zeta. split_and!.
  - by vm_compute.
  - eexists. vm_compute. do 3 apply list_elem_of_further. apply list_elem_of_here.
  - by vm_compute.
Qed.

Lemma append_inv_head (p a b : string) : p +:+ a = p +:+ b -> a = b.
Proof.
  induction p as [| c p IH]; [done |].
  change (String c p +:+ a) with (String c (p +:+ a)).
  change (String c p +:+ b) with (String c (p +:+ b)).
  intros [= H]. by apply IH.
Qed.

Lemma key_is_not_pkcs8 (domain : string) : key_path domain <> pkcs8_path domain.
Proof.
  unfold key_path, pkcs8_path.
  intros H%append_inv_head%append_inv_head. discriminate.
Qed.

(** C10.  A leaf issuance that has come to the signing command (the
    pre-flight check passed, the four files decoded, the temporary file got
    its name, and key generation, PKCS#8 encoding, the move and the request
    went through).  When the signing command fails, the run ends with status
    1 and the file system that this command left: the script has not
    removed the request [ca/<domain>.csr], the request is not among the
    tracked temporary files, and the cleanup at exit leaves it as the failed
    command left it.  When the signing command succeeds and the request is
    there, the run returns and the request is removed as the last step. *)
Theorem csr_left_behind
  (shell : nat -> string -> gmap string string -> completed)
  (tmp_dir : string) (tmp_name : nat -> string) (domain : string) (w : world)
  (b l s j temp_cnf : string) (t : nat) :
  let c := leaf_chain shell domain temp_cnf (merged_cnf b l s) (py_strip j) t
             (files w) in
  let out := generate_server_cert shell tmp_dir tmp_name domain w in
  let final := (cleanup_temp_files (out.2)).2 in
  first_missing (files w) (required_files domain) = None ->
  text_of (files w) "ca/openssl.cnf" = Some b ->
  text_of (files w) "ca/v3_req.cnf" = Some l ->
  text_of (files w) ("ca/" +:+ domain +:+ ".cnf") = Some s ->
  text_of (files w) ("ca/" +:+ domain +:+ ".subj") = Some j ->
  mkstemp_try tmp_dir tmp_name TMP_MAX (clock w) (files w) = Some (temp_cnf, t) ->
  is_absolute tmp_dir = true ->
  csr_path domain ∉ temp_files w ->
  returncode (key_result c) = 0 ->
  returncode (pkcs8_result c) = 0 ->
  is_Some (disk (pkcs8_result c) !! pkcs8_path domain) ->
  returncode (csr_result c) = 0 ->
  (returncode (sign_result c) <> 0 ->
     out.1 = Exit 1 /\
     files (out.2) = disk (sign_result c) /\
     (csr_path domain ∉ temp_files (out.2)) /\
     (Remove (csr_path domain) ∉ since w final) /\
     files final !! csr_path domain = disk (sign_result c) !! csr_path domain)
  /\
  (returncode (sign_result c) = 0 ->
   is_Some (disk (sign_result c) !! csr_path domain) ->
     out.1 = Ret tt /\
     files (out.2) = delete (csr_path domain) (disk (sign_result c)) /\
     last (since w (out.2)) = Some (Remove (csr_path domain)) /\
     files final !! csr_path domain = None).
Proof.
  cbn zeta. intros Em Hb Hl Hs Hj Ht Habs Htracked Hkey Hpkcs8 [data Hdata] Hcsr.
  rewrite (leaf_after_reads _ _ _ _ _ Em), Hb, Hl, Hs, Hj.
  rewrite (leaf_issue_run _ _ _ _ _ _ _ _ _ _ _ Ht). cbn zeta.
  rewrite Hkey, Hpkcs8, Hdata, Hcsr. cbn [Z.eqb negb].
  assert (Hnot : csr_path domain ∉ temp_files w ++ [temp_cnf]).
  { intros [Hin | Hin%list_elem_of_singleton]%elem_of_app; [done |].
    apply mkstemp_try_Some in Ht as [_ [name ->]].
    symmetry in Hin. by apply tmp_is_not_csr in Hin. }
  split.
  - intros Hsign. apply Z.eqb_neq in Hsign. rewrite Hsign. cbn [negb fst snd].
    unfold cleanup_temp_files. cbn [temp_files].
    edestruct cleanup_loop_run as (removed & -> & Hsub). cbn [snd files log].
    split_and!; [done | done | done | |].
    + rewrite <- !app_assoc. erewrite since_app by reflexivity.
      intros Hin. apply elem_of_app in Hin as [Hin | Hin].
      { by apply leaf_steps_remove in Hin as [_ ?]; [| lia]. }
      apply elem_of_app in Hin as [Hin | Hin].
      * apply list_elem_of_singleton in Hin. discriminate.
      * apply list_elem_of_fmap in Hin as (path & [= <-] & Hpath).
        by apply Hnot, Hsub.
    + rewrite lookup_foldr_delete. by rewrite decide_False.
  - intros Hsign [csr Hfile]. rewrite Hsign, Hfile. cbn [Z.eqb negb fst snd].
    unfold cleanup_temp_files. cbn [temp_files].
    edestruct cleanup_loop_run as (removed & -> & Hsub). cbn [snd files log].
    split_and!; [done | done | |].
    + erewrite since_app by reflexivity. reflexivity.
    + rewrite lookup_foldr_delete. case_decide; [done |].
      apply lookup_delete_eq.
Qed.

Lemma csr_left_behind_witness :
  let w := sim_ready "example.com" in
  let c := leaf_chain sim_shell_no_sign "example.com" "/tmp/tmp0"
             (merged_cnf openssl_cnf v3_req_cnf (domain_cnf "example.com"))
             (py_strip (domain_subj "example.com")) 1%nat (files w) in
  let out := generate_server_cert sim_shell_no_sign sim_tmp_dir sim_tmp_name
               "example.com" w in
  let final := (cleanup_temp_files (out.2)).2 in
  (returncode (sign_result c) <> 0 ->
     out.1 = Exit 1 /\
     files (out.2) = disk (sign_result c) /\
     (csr_path "example.com" ∉ temp_files (out.2)) /\
     (Remove (csr_path "example.com") ∉ since w final) /\
     files final !! csr_path "example.com"
       = disk (sign_result c) !! csr_path "example.com")
  /\
  (returncode (sign_result c) = 0 ->
   is_Some (disk (sign_result c) !! csr_path "example.com") ->
     out.1 = Ret tt /\
     files (out.2) = delete (csr_path "example.com") (disk (sign_result c)) /\
     last (since w (out.2)) = Some (Remove (csr_path "example.com")) /\
     files final !! csr_path "example.com" = None).
Proof.
  apply (csr_left_behind sim_shell_no_sign sim_tmp_dir sim_tmp_name
           "example.com" (sim_ready "example.com")
           openssl_cnf v3_req_cnf (domain_cnf "example.com")
           (domain_subj "example.com") "/tmp/tmp0" 1%nat).
  - vm_compute. reflexivity.
  - vm_compute. reflexivity.
  - vm_compute. reflexivity.
  - vm_compute. reflexivity.
  - vm_compute. reflexivity.
  - vm_compute. reflexivity.
  - reflexivity.
  - vm_compute. apply not_elem_of_nil.
  - vm_compute. reflexivity.
  - vm_compute. reflexivity.
  - vm_compute. eexists. reflexivity.
  - vm_compute. reflexivity.
Defined.

(** In the run of the witness the signing command does fail, and the
    request that [openssl req] wrote is still there when the temporary
    files have been cleaned up. *)
Example csr_left_after_failed_signing :
  let w := sim_ready "example.com" in
  let c := leaf_chain sim_shell_no_sign "example.com" "/tmp/tmp0"
             (merged_cnf openssl_cnf v3_req_cnf (domain_cnf "example.com"))
             (py_strip (domain_subj "example.com")) 1%nat (files w) in
  let out := generate_server_cert sim_shell_no_sign sim_tmp_dir sim_tmp_name
               "example.com" w in
  returncode (sign_result c) = 1 /\
  out.1 = Exit 1 /\
  is_Some (files (cleanup_temp_files (out.2)).2 !! "ca/example.com.csr") /\
  files (cleanup_temp_files (out.2)).2 !! "/tmp/tmp0" = None.
Proof.
  cbn zeta. split; [| split; [| split]]; vm_compute;
    first [reflexivity | eexists; reflexivity].
Qed.

(** Signing fails: the process ends with status 1 and the request file that
    [openssl req] wrote is still on the file system. *)
Example csr_left_when_signing_fails :
  let out := script sim_shell_no_sign sim_tmp_dir sim_tmp_name sim_denied
               ["generate_certs.py"; "--domain"; "example.com"] ∅ in
  out.1 = 1 /\
  is_Some (files out.2 !! "ca/example.com.csr") /\
  files out.2 !! "ca/example.com.crt" = None /\
  last (commands_of (log out.2)) = Some (sign_command "example.com" "/tmp/tmp3").
Proof. cbn zeta. split_and!; [by vm_compute | by vm_compute; eexists | by vm_compute | by vm_compute]. Qed.

(** ** Leaf issuance *)

(** [shutil.move] puts the content of [src] at [dst], over what was there,
    and [src] is gone. *)
Lemma shutil_move_replaces (src dst : string) (w w' : world) :
  shutil_move src dst w = (Ret tt, w') ->
  files w' !! dst = files w !! src /\
  (src <> dst -> files w' !! src = None).
Proof.
  unfold shutil_move. destruct (files w !! src) as [c |] eqn:E; [| done].
  intros [= <-]. cbn. rewrite lookup_insert_eq. split; [done |].
  intros Hne. rewrite lookup_insert_ne by done. apply lookup_delete_eq.
Qed.



Lemma lines_app_nl (a b : string) :
  lines (a +:+ nl +:+ b) = lines a ++ lines b.
Proof.
  induction a as [| c a IH].
  - reflexivity.
  - change (String c a +:+ nl +:+ b) with (String c (a +:+ nl +:+ b)).
    cbn [lines]. rewrite IH.
    destruct (Ascii.eqb c "010"); [reflexivity |].
    destruct (lines a) as [| line rest] eqn:E; [| reflexivity].
    by destruct a as [| d a']; cbn in E;
      [| destruct (Ascii.eqb d "010"); [| destruct (lines a')]].
Qed.

Lemma section_names_joined (b l s : string) :
  section_names (merged_cnf b l s)
  = section_names b ++ section_names l ++ section_names s.
Proof.
  unfold section_names, merged_cnf.
  by rewrite !lines_app_nl, !omap_app.
Qed.



(** The sections of the default files, and of their merged profile: the
    section [v3_req] of the leaf-extensions template comes after the one of
    the base template. *)
Example merged_profile_sections :
  section_names openssl_cnf
    = ["req"; "req_distinguished_name"; "v3_req"; "v3_ca"] /\
  section_names (merged_cnf openssl_cnf v3_req_cnf (domain_cnf "example.com"))
    = ["req"; "req_distinguished_name"; "v3_req"; "v3_ca"; "v3_req";
       "alt_names"].
Proof. split; vm_compute; reflexivity. Qed.

(** A template saved with CR LF line ends and a byte-order-free UTF-8 text:
    the profile holds its lines with LF ends. *)
Example merged_profile_of_crlf_file :
  let cr := String "013"%char EmptyString in
  let w := World (<["ca/openssl.cnf" := "[ req ]" +:+ cr +:+ nl +:+ "a = b" +:+ cr +:+ nl]>
                    (files (sim_ready "example.com"))) [] [] O in
  let out := generate_server_cert sim_shell sim_tmp_dir sim_tmp_name
               "example.com" w in
  text_of (files w) "ca/openssl.cnf" = Some ("[ req ]" +:+ nl +:+ "a = b" +:+ nl) /\
  MkTemp "/tmp/tmp0"
    (merged_cnf ("[ req ]" +:+ nl +:+ "a = b" +:+ nl) v3_req_cnf
                (domain_cnf "example.com"))
    ∈ since w (out.2).
Proof.
  cbn zeta. split; [vm_compute; reflexivity |].
  vm_compute. apply list_elem_of_here.
Qed.

(** A file that is not UTF-8 ends the run with [UnicodeDecodeError], before
    anything is written or run. *)
Example leaf_issuance_of_undecodable_file :
  let w := World (<["ca/v3_req.cnf" := bytes [255%nat; 254%nat]]>
                    (files (sim_ready "example.com"))) [] [] O in
  generate_server_cert sim_shell sim_tmp_dir sim_tmp_name "example.com" w
  = (Raise UnicodeDecodeError, w).
Proof.
  cbn zeta. apply injective_projections.
  - vm_compute. reflexivity.
  - vm_compute. reflexivity.
Qed.


(** ** The pre-flight check *)

(** C1, as the code has it.  When a required file is absent, leaf issuance
    ends with status 1 after one line on the error stream that names the
    first absent file of the list [required_files], and nothing else has
    happened: no command was handed to the shell, no file was written or
    removed, no temporary file was made. *)
Theorem preflight_stops_at_first_missing
  (shell : nat -> string -> gmap string string -> completed)
  (tmp_dir : string) (tmp_name : nat -> string) (domain : string) (w : world) (path : string) :
  path ∈ required_files domain ->
  files w !! path = None ->
  exists file,
    first_missing (files w) (required_files domain) = Some file /\
    file ∈ required_files domain /\
    files w !! file = None /\
    generate_server_cert shell tmp_dir tmp_name domain w =
      (Exit 1,
       World (files w) (temp_files w)
             (log w ++ [Stderr ("错误: " +:+ ("缺少必要文件: " +:+ file))])
             (clock w)).
Proof.
  intros Hin Habsent.
  destruct (first_missing (files w) (required_files domain)) as [file |] eqn:E.
  - exists file. destruct (first_missing_Some _ _ _ E) as [Hf Hn].
    split_and!; try done.
    unfold generate_server_cert. by rewrite bind_run, check_required_run, E.
  - exfalso. pose proof (proj1 (first_missing_None _ _) E path Hin) as [c Hc].
    congruence.
Qed.

Lemma preflight_stops_at_first_missing_witness :
  exists file,
    first_missing (files (sim_configured "example.com"))
                  (required_files "example.com") = Some file /\
    file ∈ required_files "example.com" /\
    files (sim_configured "example.com") !! file = None /\
    generate_server_cert sim_shell sim_tmp_dir sim_tmp_name "example.com"
      (sim_configured "example.com") =
      (Exit 1,
       World (files (sim_configured "example.com"))
             (temp_files (sim_configured "example.com"))
             (log (sim_configured "example.com")
              ++ [Stderr ("错误: " +:+ ("缺少必要文件: " +:+ file))])
             (clock (sim_configured "example.com"))).
Proof.
  apply (preflight_stops_at_first_missing sim_shell sim_tmp_dir sim_tmp_name
           "example.com" (sim_configured "example.com") "ca/ca.crt").
  - do 5 apply list_elem_of_further. apply list_elem_of_here.
  - vm_compute. reflexivity.
Defined.

(** C1, as the specification words it: with the CA key and the CA
    certificate both absent, the one line of diagnostic names the key and
    does not mention the certificate. *)
Lemma preflight_names_only_first_missing :
  let w := sim_configured "example.com" in
  let w' := (generate_server_cert sim_shell sim_tmp_dir sim_tmp_name "example.com" w).2 in
  In "ca/ca.key" (required_files "example.com") /\
  In "ca/ca.crt" (required_files "example.com") /\
  files w !! "ca/ca.key" = None /\
  files w !! "ca/ca.crt" = None /\
  since w w' = [Stderr "错误: 缺少必要文件: ca/ca.key"] /\
  infix_of "ca/ca.crt" "错误: 缺少必要文件: ca/ca.key" = false.
Proof.
  cbn zeta. split; [| split; [| split; [| split; [| split]]]].
  - vm_compute. tauto.
  - vm_compute. tauto.
  - vm_compute. reflexivity.
  - vm_compute. reflexivity.
  - vm_compute. reflexivity.
  - vm_compute. reflexivity.
Qed.

(** [ca/v3_ca.cnf] is one of the shared templates, and it is not among the
    files of the pre-flight check: leaf issuance goes through without it. *)
Example leaf_issuance_without_v3_ca :
  let w := sim_ready "example.com" in
  let w0 := World (delete "ca/v3_ca.cnf" (files w)) [] [] O in
  files w0 !! "ca/v3_ca.cnf" = None /\
  (generate_server_cert sim_shell sim_tmp_dir sim_tmp_name "example.com" w0).1 = Ret tt.
Proof. cbn zeta. split; vm_compute; reflexivity. Qed.

(** ** Configuration files *)

Section Config.

Variable denied : string -> bool.

Lemma write_if_absent_run path content w :
  write_if_absent denied path content w =
  match files w !! path with
  | Some _ => (Ret tt, w)
  | None =>
      if denied path then (Raise (OSError path), w)
      else (Ret tt,
            World (<[path := content]> (files w)) (temp_files w) (log w)
                  (clock w))
  end.
Proof.
  unfold write_if_absent, write_text. rewrite bind_run. cbn.
  destruct (files w !! path) as [c |] eqn:E.
  - rewrite bool_decide_eq_true_2 by eauto. done.
  - rewrite bool_decide_eq_false_2 by (by intros [? ?]). cbn.
    by destruct (denied path).
Qed.

Lemma create_default_config_files_loop domain w :
  create_default_config_files denied domain w =
  (os_makedirs denied "ca";; write_defaults denied (default_files domain)) w.
Proof.
  unfold create_default_config_files, default_files, write_defaults.
  rewrite !bind_run.
  destruct (os_makedirs denied "ca" w) as [[[] | c | e] w0]; [| done | done].
  repeat (rewrite !bind_run;
          match goal with
          | |- context [write_if_absent denied ?p ?c ?w] =>
              destruct (write_if_absent denied p c w) as [[[] | ? | ?] ?]
          end; [| done | done]).
  done.
Qed.

Lemma create_default_config_files_run domain w :
  create_default_config_files denied domain w =
  if denied "ca" then (Raise (OSError "ca"), w)
  else write_defaults denied (default_files domain) w.
Proof.
  rewrite create_default_config_files_loop, bind_run. unfold os_makedirs.
  destruct (denied "ca"); reflexivity.
Qed.

(** A file that is there stays as it is. *)
Lemma write_defaults_keeps defaults w r w' path content :
  write_defaults denied defaults w = (r, w') ->
  files w !! path = Some content -> files w' !! path = Some content.
Proof.
  revert w. induction defaults as [| [p c] rest IH]; intros w; cbn.
  - by intros [= <- <-].
  - rewrite bind_run, write_if_absent_run.
    destruct (files w !! p) as [old |] eqn:E; [apply IH |].
    destruct (denied p); [by intros [= <- <-] |].
    intros H Hpath. apply (IH _ H). cbn.
    rewrite lookup_insert_ne; [done | congruence].
Qed.

Lemma write_defaults_again defaults w r w' :
  write_defaults denied defaults w = (r, w') ->
  write_defaults denied defaults w' = (r, w').
Proof.
  revert w. induction defaults as [| [p c] rest IH]; intros w; cbn.
  - by intros [= <- <-].
  - rewrite !bind_run, !write_if_absent_run.
    destruct (files w !! p) as [old |] eqn:E.
    + intros H. rewrite (write_defaults_keeps _ _ _ _ _ _ H E). by apply IH in H.
    + destruct (denied p) eqn:Ed.
      * intros [= <- <-]. by rewrite E.
      * intros H.
        rewrite (write_defaults_keeps _ _ _ _ p c H)
          by (cbn; apply lookup_insert_eq).
        by apply IH in H.
Qed.

(** After a run that returned, a file that was absent holds the first
    default listed for its path. *)
Lemma write_defaults_content defaults w w' path :
  write_defaults denied defaults w = (Ret tt, w') ->
  files w' !! path =
  match files w !! path with
  | Some content => Some content
  | None => default_for path defaults
  end.
Proof.
  revert w. induction defaults as [| [p c] rest IH]; intros w; cbn.
  - intros [= <-]. by destruct (files w !! path).
  - rewrite bind_run, write_if_absent_run.
    destruct (files w !! p) as [old |] eqn:E.
    + intros H. rewrite (IH _ H).
      destruct (files w !! path) eqn:Ep; [done |].
      destruct (String.eqb_spec p path) as [-> | Hne]; [congruence | done].
    + destruct (denied p); [done |]. intros H. rewrite (IH _ H). cbn.
      destruct (String.eqb_spec p path) as [-> | Hne].
      * by rewrite lookup_insert_eq, E.
      * by rewrite lookup_insert_ne.
Qed.

End Config.

(** C2.  Configuration materialisation is idempotent: a second run of
    [create_default_config_files] on the world the first run left ends the
    same way and leaves that world as it is, so every file is the same byte
    for byte.  A file is written only when it is absent: a file that was
    there before the run has its content after it, and after a run that
    returned, a path that had no file has the first default listed for it
    (the three shared templates, then the SAN block and the subject line of
    the domain) and no other path has gained a file. *)
Theorem config_materialization_idempotent
  (denied : string -> bool) (domain : string) (w : world) :
  let first := create_default_config_files denied domain w in
  create_default_config_files denied domain (first.2) = first /\
  (forall path content,
     files w !! path = Some content -> files (first.2) !! path = Some content) /\
  (first.1 = Ret tt ->
   forall path,
     files (first.2) !! path =
     match files w !! path with
     | Some content => Some content
     | None => default_for path (default_files domain)
     end).
Proof.
  cbn zeta. rewrite !create_default_config_files_run.
  destruct (denied "ca") eqn:Ed; [split_and!; done |].
  destruct (write_defaults denied (default_files domain) w) as [r w'] eqn:H.
  cbn [fst snd]. split_and!.
  - by apply write_defaults_again in H.
  - intros path content. by apply write_defaults_keeps with (1 := H).
  - intros -> path. by apply (write_defaults_content denied).
Qed.

(** Two runs on an empty directory, and a run over a file of the user. *)
Example config_twice :
  let once := (create_default_config_files sim_denied "example.com" (start ∅)).2 in
  let twice := (create_default_config_files sim_denied "example.com" once).2 in
  map_to_list (files twice) = map_to_list (files once) /\
  files once !! "ca/example.com.subj"
    = Some "/C=CN/ST=State/L=City/O=Organization/OU=Unit/CN=example.com" /\
  files (create_default_config_files sim_denied "example.com"
           (start {["ca/v3_req.cnf" := "mine"]})).2 !! "ca/v3_req.cnf"
    = Some "mine".
Proof. cbn zeta. split; [| split]; vm_compute; reflexivity. Qed.

(** ** The CA *)

Lemma generate_ca_cert_run
  (shell : nat -> string -> gmap string string -> completed) (w : world) :
  let key := shell (clock w) ca_key_command (files w) in
  let cert := shell (S (clock w)) ca_cert_command (disk key) in
  generate_ca_cert shell w =
  if returncode key =? 0
  then
    if returncode cert =? 0
    then (Ret tt,
          World (disk cert) (temp_files w)
                (log w ++ [Exec ca_key_command; Exec ca_cert_command])
                (S (S (clock w))))
    else (Exit 1,
          World (disk cert) (temp_files w)
                (log w ++ [Exec ca_key_command; Exec ca_cert_command;
                           Stderr ("错误: " +:+ ("命令执行失败: "
                                     +:+ ca_cert_command +:+ nl
                                     +:+ stderr cert))])
                (S (S (clock w))))
  else (Exit 1,
        World (disk key) (temp_files w)
              (log w ++ [Exec ca_key_command;
                         Stderr ("错误: " +:+ ("命令执行失败: "
                                   +:+ ca_key_command +:+ nl +:+ stderr key))])
              (S (clock w))).
Proof.
  cbn zeta. unfold generate_ca_cert.
  rewrite bind_run, run_command_run.
  destruct (returncode (shell (clock w) ca_key_command (files w)) =? 0);
    [| done].
  rewrite bind_run, run_command_run. cbn [files temp_files log clock].
  destruct (returncode _ =? 0); cbn; by rewrite <- app_assoc.
Qed.


(** C4, as the specification words it: with the configuration files written
    (the CA profile is in [ca/v3_ca.cnf]), CA issuance returns after its two
    commands, and neither of them names a configuration file, an extension
    section or an extension. *)
Lemma ca_issuance_supplies_no_profile :
  let w := sim_configured "example.com" in
  let out := generate_ca_cert sim_shell w in
  files w !! "ca/v3_ca.cnf" = Some v3_ca_cnf /\
  out.1 = Ret tt /\
  commands_of (since w (out.2)) = [ca_key_command; ca_cert_command] /\
  existsb names_extension_source (commands_of (since w (out.2))) = false.
Proof.
  cbn zeta. split; [| split; [| split]]; vm_compute; reflexivity.
Qed.

(** C4, as the code has it.  The commands of a CA issuance are the key
    command and the certificate command; the certificate command asks for a
    self-signed certificate ([-x509]) for the key [ca/ca.key] and names no
    configuration file, extension section or extension, so the extensions
    of the CA certificate are those of the configuration that the [openssl]
    installation uses by itself.  The profile with basic constraints
    critical CA:true and the six key usages is the default content of
    [ca/v3_ca.cnf] and a section of the default [ca/openssl.cnf]. *)
Theorem ca_profile_is_not_passed
  (shell : nat -> string -> gmap string string -> completed) (w : world) :
  Forall (fun command => command = ca_key_command \/ command = ca_cert_command)
         (commands_of (since w (generate_ca_cert shell w).2)) /\
  names_extension_source ca_key_command = false /\
  names_extension_source ca_cert_command = false /\
  has_flag "-x509" (words ca_cert_command) = true /\
  flag_value "-key" (words ca_cert_command) = Some "ca/ca.key" /\
  Forall (fun text =>
            infix_of "basicConstraints       = critical, CA:true" text = true /\
            infix_of "keyUsage               = cRLSign, keyCertSign, digitalSignature, nonRepudiation, keyEncipherment, dataEncipherment" text = true)
         [v3_ca_cnf; openssl_cnf].
Proof.
  split; [| split_and!; try reflexivity].
  - rewrite generate_ca_cert_run.
    destruct (returncode _ =? 0); [destruct (returncode _ =? 0) |];
      cbn [snd]; erewrite since_app by reflexivity; cbn;
      repeat first [apply Forall_nil_2 | apply Forall_cons_2; [tauto |]].
  - repeat constructor; vm_compute; reflexivity.
Qed.

(** ** Validity *)



(** The validities on the command lines of a run on the simulated
    environment. *)
Example validities_of_a_whole_run :
  let w := (generate_ca_cert sim_shell (sim_configured "example.com")).2 in
  let out := generate_server_cert sim_shell sim_tmp_dir sim_tmp_name
               "example.com" (World (files w) [] [] O) in
  omap days_of (commands_of (log w)) = [36500] /\
  omap days_of (commands_of (log (out.2))) = [365].
Proof. cbn zeta. split; vm_compute; reflexivity. Qed.


(** ** Whole runs *)

(** The default domain on an empty directory: the process ends with status
    0 after six commands, and the keys, certificates and configuration files
    are there while the request and the merged profile are not. *)
Example script_default_domain :
  let out := script sim_shell sim_tmp_dir sim_tmp_name sim_denied ["generate_certs.py"] ∅ in
  out.1 = 0 /\
  commands_of (log out.2) =
    [ "openssl version";
      ca_key_command;
      ca_cert_command;
      "openssl genrsa -out ca/api.openai.com.key 2048";
      "openssl pkcs8 -topk8 -nocrypt -in ca/api.openai.com.key -out ca/api.openai.com.key.pkcs8";
      csr_command "api.openai.com" "/tmp/tmp3"
        "/C=CN/ST=State/L=City/O=Organization/OU=Unit/CN=api.openai.com";
      "openssl x509 -req -days 365 -in ca/api.openai.com.csr -CA ca/ca.crt -CAkey ca/ca.key -CAcreateserial -out ca/api.openai.com.crt -extfile /tmp/tmp3 -extensions v3_req" ] /\
  forallb (fun path => bool_decide (is_Some (files out.2 !! path)))
    [ "ca/ca.key"; "ca/ca.crt"; "ca/openssl.cnf"; "ca/v3_ca.cnf";
      "ca/v3_req.cnf"; "ca/api.openai.com.cnf"; "ca/api.openai.com.subj";
      "ca/api.openai.com.key"; "ca/api.openai.com.crt" ] = true /\
  forallb (fun path => bool_decide (files out.2 !! path = None))
    [ "ca/api.openai.com.csr"; "ca/api.openai.com.key.pkcs8"; "/tmp/tmp3" ]
    = true.
Proof. cbn zeta. split; [| split; [| split]]; vm_compute; reflexivity. Qed.

(** Without [openssl]: the bare [except] of [check_openssl] catches the
    [SystemExit] of [run_command], so two lines go to the error stream, and
    the process ends with status 1 before any file is written. *)
Example script_without_openssl :
  let out := script no_shell sim_tmp_dir sim_tmp_name sim_denied ["generate_certs.py"] ∅ in
  out.1 = 1 /\
  commands_of (log out.2) = ["openssl version"] /\
  length (log out.2) = 3%nat /\
  map_to_list (files out.2) = [].
Proof. cbn zeta. split; [| split; [| split]]; vm_compute; reflexivity. Qed.

(** * Further properties of the script *)

(** ** [create_temp_file] *)

(** X1.  [create_temp_file] either returns a path that had no file, which
    then holds the content, is the last entry of [temp_files] and is the
    only path whose file changed, or it raises [FileExistsError] (no name
    was free) and leaves files, list and trace as they were.  It never ends
    the script through [sys.exit]. *)
Theorem create_temp_file_fresh
  (tmp_dir : string) (tmp_name : nat -> string) (content : string) (w : world) :
  let out := create_temp_file tmp_dir tmp_name content w in
  match out.1 with
  | Ret path =>
      files w !! path = None /\
      files (out.2) !! path = Some content /\
      (forall other, other <> path ->
         files (out.2) !! other = files w !! other) /\
      temp_files (out.2) = temp_files w ++ [path] /\
      since w (out.2) = [MkTemp path content]
  | Raise e =>
      e = FileExistsError /\
      files (out.2) = files w /\
      temp_files (out.2) = temp_files w /\
      log (out.2) = log w
  | Exit _ => False
  end.
Proof.
  cbn zeta. rewrite create_temp_file_run.
  destruct (mkstemp_try tmp_dir tmp_name TMP_MAX (clock w) (files w))
    as [[path t] |] eqn:E; cbn.
  - apply mkstemp_try_Some in E as [Hfresh _]. split_and!.
    + done.
    + apply lookup_insert_eq.
    + intros other Hne. by rewrite !lookup_insert_ne.
    + done.
    + by apply since_app.
  - done.
Qed.

(** No name is free: every name drawn is the same and its file exists. *)
Example create_temp_file_no_name :
  let w := start {["/tmp/tmpx" := "taken"]} in
  let out := create_temp_file "/tmp" (fun _ => "x") "content" w in
  out.1 = Raise FileExistsError /\
  files (out.2) !! "/tmp/tmpx" = Some "taken" /\
  temp_files (out.2) = [].
Proof. cbn zeta. split; [| split]; vm_compute; reflexivity. Qed.

(** X2.  Making a temporary file and then running the cleanup gives back
    the file system as it was, when no file of an earlier tracked path was
    left: the temporary file is the only file that was added, and the
    cleanup removes it and nothing else. *)
Theorem temp_file_round_trip
  (tmp_dir : string) (tmp_name : nat -> string) (content : string) (w : world) (path : string) :
  let made := create_temp_file tmp_dir tmp_name content w in
  made.1 = Ret path ->
  (forall tracked, tracked ∈ temp_files w -> files w !! tracked = None) ->
  files (cleanup_temp_files (made.2)).2 = files w.
Proof.
  cbn zeta. rewrite create_temp_file_run.
  destruct (mkstemp_try tmp_dir tmp_name TMP_MAX (clock w) (files w))
    as [[p t] |] eqn:E; cbn; [| done].
  intros [= ->] Hgone. apply mkstemp_try_Some in E as [Hfresh _].
  unfold cleanup_temp_files. cbn [temp_files].
  edestruct cleanup_loop_run as (removed & -> & _). cbn [snd files].
  apply map_eq. intros q. rewrite lookup_foldr_delete.
  destruct (decide (q ∈ temp_files w ++ [path])) as [Hin | Hout].
  - apply elem_of_app in Hin as [Hin | ->%list_elem_of_singleton].
    + symmetry. by apply Hgone.
    + done.
  - assert (q <> path) by (intros ->; apply Hout, elem_of_app; right; by left).
    by rewrite !lookup_insert_ne.
Qed.

Lemma temp_file_round_trip_witness :
  files (cleanup_temp_files
           (create_temp_file sim_tmp_dir sim_tmp_name "merged"
              (start {["ca/ca.key" := "key"]})).2).2
  = files (start {["ca/ca.key" := "key"]}).
Proof.
  apply (temp_file_round_trip sim_tmp_dir sim_tmp_name "merged"
           (start {["ca/ca.key" := "key"]}) "/tmp/tmp0").
  - vm_compute. reflexivity.
  - intros tracked Hin. vm_compute in Hin. by apply elem_of_nil in Hin.
Defined.

(** ** [run_command] and [check_openssl] *)

Lemma check_openssl_run
  (shell : nat -> string -> gmap string string -> completed) (w : world) :
  let result := shell (clock w) "openssl version" (files w) in
  check_openssl shell w =
  if returncode result =? 0
  then (Ret tt,
        World (disk result) (temp_files w) (log w ++ [Exec "openssl version"])
              (S (clock w)))
  else (Exit 1,
        World (disk result) (temp_files w)
              (log w ++
               [ Exec "openssl version";
                 Stderr ("错误: " +:+ ("命令执行失败: " +:+ "openssl version"
                                       +:+ nl +:+ stderr result));
                 Stderr "错误: 未找到OpenSSL。请确保OpenSSL已安装并在PATH中。" ])
              (S (clock w))).
Proof.
  cbn zeta. unfold check_openssl, try_except.
  rewrite bind_run, run_command_run.
  destruct (returncode _ =? 0); [done |].
  rewrite error_run. cbn. by rewrite <- app_assoc.
Qed.

(** X3.  [check_openssl] runs [openssl version] once and returns when its
    status is zero.  Otherwise the bare [except] catches the exit that
    [run_command] asked for, so two lines go to the error stream, the
    failed command and then the advice to install the tool, and the script
    ends with status 1.  No exception leaves [check_openssl]. *)
Theorem check_openssl_outcome
  (shell : nat -> string -> gmap string string -> completed) (w : world) :
  let result := shell (clock w) "openssl version" (files w) in
  let out := check_openssl shell w in
  files (out.2) = disk result /\
  temp_files (out.2) = temp_files w /\
  (returncode result = 0 ->
     out.1 = Ret tt /\ since w (out.2) = [Exec "openssl version"]) /\
  (returncode result <> 0 ->
     out.1 = Exit 1 /\
     since w (out.2) =
       [ Exec "openssl version";
         Stderr ("错误: " +:+ ("命令执行失败: " +:+ "openssl version"
                               +:+ nl +:+ stderr result));
         Stderr "错误: 未找到OpenSSL。请确保OpenSSL已安装并在PATH中。" ]) /\
  (forall e, out.1 <> Raise e).
Proof.
  cbn zeta. rewrite check_openssl_run.
  destruct (Z.eqb_spec (returncode (shell (clock w) "openssl version" (files w))) 0)
    as [Hz | Hnz]; cbn; split_and!; try done.
  - intros _. split; [done | by apply since_app].
  - intros _. split; [done | by apply since_app].
Qed.

(** ** [create_default_config_files] *)

Section ConfigFrame.

Variable denied : string -> bool.

Lemma write_defaults_frame defaults w r w' :
  write_defaults denied defaults w = (r, w') ->
  log w' = log w /\ temp_files w' = temp_files w /\ clock w' = clock w /\
  (r = Ret tt \/ exists path, r = Raise (OSError path) /\ denied path = true) /\
  forall path,
    files w' !! path = files w !! path \/
    (files w !! path = None /\ denied path = false /\
     is_Some (default_for path defaults) /\
     files w' !! path = default_for path defaults).
Proof.
  revert w. induction defaults as [| [p c] rest IH]; intros w; cbn.
  - intros [= <- <-]. split_and!; auto.
  - rewrite bind_run, write_if_absent_run.
    destruct (files w !! p) as [old |] eqn:E.
    + intros H. destruct (IH _ H) as (Hl & Ht & Hc & Hr & Hf).
      split_and!; try done. intros path.
      destruct (Hf path) as [Hsame | (Hn & Hd & Hs & Hv)]; [by left |].
      right. destruct (String.eqb_spec p path) as [-> | Hne]; [congruence |].
      done.
    + destruct (denied p) eqn:Ed.
      * intros [= <- <-]. split_and!; eauto.
      * intros H. destruct (IH _ H) as (Hl & Ht & Hc & Hr & Hf).
        cbn in *. split_and!; try done. intros path.
        destruct (String.eqb_spec p path) as [-> | Hne].
        -- right. destruct (Hf path) as [Hsame | (Hn & _)].
           ++ rewrite lookup_insert_eq in Hsame. split_and!; eauto.
           ++ by rewrite lookup_insert_eq in Hn.
        -- specialize (Hf path). by rewrite lookup_insert_ne in Hf.
Qed.

End ConfigFrame.

(** X5.  [create_default_config_files] consults neither the shell nor the
    list of temporary files and prints nothing; it ends by returning or by
    the [OSError] of a path that the OS refused, never through [sys.exit].
    However it ends, a path either has the file it had, or it had none, was
    not refused, and now holds the first default listed for it: nothing
    outside the five configuration paths is created, and no file is
    changed or removed. *)
Theorem config_changes_only_absent_defaults
  (denied : string -> bool) (domain : string) (w : world) :
  let out := create_default_config_files denied domain w in
  log (out.2) = log w /\
  temp_files (out.2) = temp_files w /\
  clock (out.2) = clock w /\
  (out.1 = Ret tt \/
   exists path, out.1 = Raise (OSError path) /\ denied path = true) /\
  forall path,
    files (out.2) !! path = files w !! path \/
    (files w !! path = None /\ denied path = false /\
     is_Some (default_for path (default_files domain)) /\
     files (out.2) !! path = default_for path (default_files domain)).
Proof.
  cbn zeta. rewrite create_default_config_files_run.
  destruct (denied "ca") eqn:Ed.
  - cbn. split_and!; eauto.
  - destruct (write_defaults denied (default_files domain) w) as [r w'] eqn:H.
    by apply write_defaults_frame in H.
Qed.

(** The directory is there but the files of the domain cannot be created
    (a domain with a slash names a directory that does not exist): the
    three shared templates are written and the run ends with the error of
    the SAN block. *)
Example config_domain_with_slash :
  let refuse := fun path => String.eqb path "ca/a/b.cnf" in
  let out := create_default_config_files refuse "a/b" (start ∅) in
  out.1 = Raise (OSError "ca/a/b.cnf") /\
  size (files (out.2)) = 3%nat /\
  forallb (fun path => bool_decide (is_Some (files (out.2) !! path)))
    ["ca/openssl.cnf"; "ca/v3_ca.cnf"; "ca/v3_req.cnf"] = true.
Proof. cbn zeta. split; [| split]; vm_compute; reflexivity. Qed.

(** ** How runs end *)

Section Outcomes.

Variable shell : nat -> string -> gmap string string -> completed.
Variable tmp_dir : string.
Variable tmp_name : nat -> string.
Variable denied : string -> bool.

Lemma write_defaults_log defaults w r w' :
  write_defaults denied defaults w = (r, w') ->
  log w' = log w /\ temp_files w' = temp_files w /\
  (r = Ret tt \/ exists e, r = Raise e).
Proof.
  intros H. apply write_defaults_frame in H
    as (Hl & Ht & _ & [-> | (path & -> & _)] & _); eauto.
Qed.

(** A run of [main] went through the first [n] of the ten events of a whole
    run, and ended like a run of [generate_server_cert], except that the
    check for the tool prints two lines. *)
Lemma main_outcome argv fs r w' :
  main shell tmp_dir tmp_name denied argv (start fs) = (r, w') ->
  exists n name merged subj errs,
    log w' =
      take n (main_steps (domain_of_argv argv) (temp_path tmp_dir name)
                         merged subj)
      ++ errs /\
    (n <= 10)%nat /\
    Forall is_stderr errs /\
    ((r = Ret tt /\ n = 10%nat /\ errs = []) \/
     (r = Exit 1 /\ (n < 10)%nat /\ errs <> []) \/
     (exists e, r = Raise e /\ (n < 10)%nat /\ errs = [])).
Proof.
  unfold main. cbn zeta. intros H.
  rewrite bind_run, check_openssl_run in H. cbn [files temp_files log clock start] in H.
  destruct (returncode _ =? 0).
  2:{ injection H as <- <-.
      eexists 1%nat, EmptyString, EmptyString, EmptyString, [_; _].
      cbn. split_and!; [reflexivity | lia | by repeat constructor |].
      right. left. split_and!; [done | lia | done]. }
  rewrite bind_run, create_default_config_files_run in H.
  destruct (denied "ca").
  { injection H as <- <-.
    exists 1%nat, EmptyString, EmptyString, EmptyString, [].
    cbn. split_and!; [reflexivity | lia | done |].
    do 2 right. eexists. split_and!; [done | lia | done]. }
  destruct (write_defaults denied _ _) as [r1 w1] eqn:Hw.
  apply write_defaults_log in Hw as (Hl1 & Ht1 & Hr1). cbn in Hl1, Ht1.
  destruct Hr1 as [-> | [e ->]].
  2:{ injection H as <- <-.
      exists 1%nat, EmptyString, EmptyString, EmptyString, [].
      cbn. rewrite Hl1. split_and!; [reflexivity | lia | done |].
      do 2 right. eexists. split_and!; [done | lia | done]. }
  rewrite bind_run, generate_ca_cert_run in H. rewrite Hl1 in H.
  destruct (returncode _ =? 0).
  2:{ injection H as <- <-.
      eexists 2%nat, EmptyString, EmptyString, EmptyString, [_].
      cbn. split_and!; [reflexivity | lia | by repeat constructor |].
      right. left. split_and!; [done | lia | done]. }
  destruct (returncode _ =? 0).
  2:{ injection H as <- <-.
      eexists 3%nat, EmptyString, EmptyString, EmptyString, [_].
      cbn. split_and!; [reflexivity | lia | by repeat constructor |].
      right. left. split_and!; [done | lia | done]. }
  apply leaf_run_outcome in H
    as (n & name & merged & subj & errs & Hlog & _ & Hn & Hr & _).
  cbn [log] in Hlog.
  exists (3 + n)%nat, name, merged, subj, errs.
  split_and!.
  - rewrite Hlog. reflexivity.
  - lia.
  - destruct Hr as [(_ & _ & ->) | [(_ & _ & text & ->) | (e & _ & _ & ->)]];
      by repeat constructor.
  - destruct Hr as [(-> & -> & ->) | [(-> & Hlt & text & ->) | (e & -> & Hlt & ->)]].
    + by left.
    + right. left. split_and!; [done | lia | done].
    + do 2 right. exists e. split_and!; [done | lia | done].
Qed.

End Outcomes.

(** X6.  Leaf issuance stops at the first command whose status is not
    zero.  Take a world in which the six required files are there, the four
    texts decode and a temporary name is free, and let the chain [c] hold
    what the shell gives for the four commands, each on what the step before
    it left.  If the key command fails, the run ends with status 1, the key
    command is the only one handed to the shell, one line on the error
    stream names it, and the file system is what it left.  If it succeeds
    and the PKCS#8 command fails, the same holds after these two commands;
    likewise for the request command after three and the signing command
    after four.  Only when all four have status zero does the run return. *)
Theorem leaf_issuance_fails_fast
  (shell : nat -> string -> gmap string string -> completed)
  (tmp_dir : string) (tmp_name : nat -> string) (domain : string) (w : world)
  (b l s j temp_cnf : string) (t : nat) :
  first_missing (files w) (required_files domain) = None ->
  text_of (files w) "ca/openssl.cnf" = Some b ->
  text_of (files w) "ca/v3_req.cnf" = Some l ->
  text_of (files w) ("ca/" +:+ domain +:+ ".cnf") = Some s ->
  text_of (files w) ("ca/" +:+ domain +:+ ".subj") = Some j ->
  mkstemp_try tmp_dir tmp_name TMP_MAX (clock w) (files w) = Some (temp_cnf, t) ->
  let merged := merged_cnf b l s in
  let subj := py_strip j in
  let c := leaf_chain shell domain temp_cnf merged subj t (files w) in
  let out := generate_server_cert shell tmp_dir tmp_name domain w in
  (returncode (key_result c) <> 0 ->
     out.1 = Exit 1 /\
     files (out.2) = disk (key_result c) /\
     since w (out.2) =
       [ MkTemp temp_cnf merged;
         Exec (leaf_key_command domain);
         failure_line (leaf_key_command domain) (key_result c) ]) /\
  (returncode (key_result c) = 0 ->
   returncode (pkcs8_result c) <> 0 ->
     out.1 = Exit 1 /\
     files (out.2) = disk (pkcs8_result c) /\
     since w (out.2) =
       [ MkTemp temp_cnf merged;
         Exec (leaf_key_command domain);
         Exec (pkcs8_command domain);
         failure_line (pkcs8_command domain) (pkcs8_result c) ]) /\
  (returncode (key_result c) = 0 ->
   returncode (pkcs8_result c) = 0 ->
   is_Some (disk (pkcs8_result c) !! pkcs8_path domain) ->
   returncode (csr_result c) <> 0 ->
     out.1 = Exit 1 /\
     files (out.2) = disk (csr_result c) /\
     since w (out.2) =
       [ MkTemp temp_cnf merged;
         Exec (leaf_key_command domain);
         Exec (pkcs8_command domain);
         Move (pkcs8_path domain) (key_path domain);
         Exec (csr_command domain temp_cnf subj);
         failure_line (csr_command domain temp_cnf subj) (csr_result c) ]) /\
  (returncode (key_result c) = 0 ->
   returncode (pkcs8_result c) = 0 ->
   is_Some (disk (pkcs8_result c) !! pkcs8_path domain) ->
   returncode (csr_result c) = 0 ->
   returncode (sign_result c) <> 0 ->
     out.1 = Exit 1 /\
     files (out.2) = disk (sign_result c) /\
     since w (out.2) =
       [ MkTemp temp_cnf merged;
         Exec (leaf_key_command domain);
         Exec (pkcs8_command domain);
         Move (pkcs8_path domain) (key_path domain);
         Exec (csr_command domain temp_cnf subj);
         Exec (sign_command domain temp_cnf);
         failure_line (sign_command domain temp_cnf) (sign_result c) ]) /\
  (out.1 = Ret tt ->
     returncode (key_result c) = 0 /\
     returncode (pkcs8_result c) = 0 /\
     returncode (csr_result c) = 0 /\
     returncode (sign_result c) = 0).
Proof.
  intros Em Hb Hl Hs Hj Et. cbn zeta.
  rewrite (leaf_reads_done _ _ _ _ _ _ _ _ _ Em Hb Hl Hs Hj).
  rewrite (leaf_issue_run _ _ _ _ _ _ _ _ _ _ _ Et). cbn zeta.
  set (c := leaf_chain shell domain temp_cnf (merged_cnf b l s) (py_strip j)
              t (files w)).
  destruct (Z.eqb_spec (returncode (key_result c)) 0) as [Hkey | Hkey];
    cbn [negb].
  2:{ split_and!; try done.
      intros _. cbn [fst snd files]. split_and!; [done | done |].
      by erewrite since_app by reflexivity. }
  destruct (Z.eqb_spec (returncode (pkcs8_result c)) 0) as [Hpkcs8 | Hpkcs8];
    cbn [negb].
  2:{ split_and!; try done.
      intros _ _. cbn [fst snd files]. split_and!; [done | done |].
      by erewrite since_app by reflexivity. }
  destruct (disk (pkcs8_result c) !! pkcs8_path domain) as [data |] eqn:Hdata.
  2:{ split_and!; try done; by intros _ _ [? ?]. }
  destruct (Z.eqb_spec (returncode (csr_result c)) 0) as [Hcsr | Hcsr];
    cbn [negb].
  2:{ split_and!; try done.
      intros _ _ _ _. cbn [fst snd files]. split_and!; [done | done |].
      by erewrite since_app by reflexivity. }
  destruct (Z.eqb_spec (returncode (sign_result c)) 0) as [Hsign | Hsign];
    cbn [negb].
  2:{ split_and!; try done.
      intros _ _ _ _ _. cbn [fst snd files]. split_and!; [done | done |].
      by erewrite since_app by reflexivity. }
  split_and!; try done.
Qed.

Lemma leaf_issuance_fails_fast_witness :
  let w := sim_ready "example.com" in
  let merged := merged_cnf openssl_cnf v3_req_cnf (domain_cnf "example.com") in
  let subj := py_strip (domain_subj "example.com") in
  let c := leaf_chain sim_shell_no_sign "example.com" "/tmp/tmp0" merged subj
             1%nat (files w) in
  let out := generate_server_cert sim_shell_no_sign sim_tmp_dir sim_tmp_name
               "example.com" w in
  out.1 = Exit 1 /\
  files (out.2) = disk (sign_result c) /\
  since w (out.2) =
    [ MkTemp "/tmp/tmp0" merged;
      Exec (leaf_key_command "example.com");
      Exec (pkcs8_command "example.com");
      Move (pkcs8_path "example.com") (key_path "example.com");
      Exec (csr_command "example.com" "/tmp/tmp0" subj);
      Exec (sign_command "example.com" "/tmp/tmp0");
      failure_line (sign_command "example.com" "/tmp/tmp0") (sign_result c) ].
Proof.
  cbn zeta.
  destruct (leaf_issuance_fails_fast sim_shell_no_sign sim_tmp_dir sim_tmp_name
              "example.com" (sim_ready "example.com")
              openssl_cnf v3_req_cnf (domain_cnf "example.com")
              (domain_subj "example.com") "/tmp/tmp0" 1%nat)
    as (_ & _ & _ & Hsign & _).
  - vm_compute. reflexivity.
  - vm_compute. reflexivity.
  - vm_compute. reflexivity.
  - vm_compute. reflexivity.
  - vm_compute. reflexivity.
  - vm_compute. reflexivity.
  - apply Hsign.
    + vm_compute. reflexivity.
    + vm_compute. reflexivity.
    + vm_compute. eexists. reflexivity.
    + vm_compute. reflexivity.
    + vm_compute. discriminate.
Defined.

(** A key command that fails ends a run before any other command. *)
Example leaf_run_with_no_key_tool :
  let failing (t : nat) (command : string) (fs : gmap string string) :=
    Completed 127 "openssl: not found" fs in
  let w := sim_ready "example.com" in
  let out := generate_server_cert failing sim_tmp_dir sim_tmp_name
               "example.com" w in
  out.1 = Exit 1 /\
  commands_of (since w (out.2)) = [leaf_key_command "example.com"] /\
  files (out.2) !! "ca/example.com.key" = None.
Proof. cbn zeta. split_and!; vm_compute; reflexivity. Qed.

(** X7.  The pre-flight check rejects a run only for a missing file.  When
    the six required files are there, leaf issuance goes on to read the four
    texts: a file that does not decode ends the run with
    [UnicodeDecodeError] and the world as it was; otherwise the merged
    profile of the texts is written to a path that had no file and the leaf
    key command is handed to the shell, unless no temporary name is free, in
    which case [FileExistsError] is raised and files and trace are as they
    were. *)
Theorem preflight_passes_when_all_present
  (shell : nat -> string -> gmap string string -> completed)
  (tmp_dir : string) (tmp_name : nat -> string) (domain : string) (w : world) :
  let out := generate_server_cert shell tmp_dir tmp_name domain w in
  (forall path, path ∈ required_files domain -> is_Some (files w !! path)) ->
  (out = (Raise UnicodeDecodeError, w) /\
   (text_of (files w) "ca/openssl.cnf" = None \/
    text_of (files w) "ca/v3_req.cnf" = None \/
    text_of (files w) ("ca/" +:+ domain +:+ ".cnf") = None \/
    text_of (files w) ("ca/" +:+ domain +:+ ".subj") = None)) \/
  (out.1 = Raise FileExistsError /\
   files (out.2) = files w /\ since w (out.2) = []) \/
  (exists temp_cnf b l s rest,
     text_of (files w) "ca/openssl.cnf" = Some b /\
     text_of (files w) "ca/v3_req.cnf" = Some l /\
     text_of (files w) ("ca/" +:+ domain +:+ ".cnf") = Some s /\
     files w !! temp_cnf = None /\
     since w (out.2) =
       MkTemp temp_cnf (merged_cnf b l s)
       :: Exec (leaf_key_command domain) :: rest).
Proof.
  cbn zeta. intros Hall. apply first_missing_None in Hall.
  destruct (generate_server_cert shell tmp_dir tmp_name domain w) as [r w'] eqn:H.
  apply leaf_run_outcome in H
    as (n & name & merged & subj & errs & Hlog & _ & Hn & Hr & Hfiles).
  cbn [fst snd]. rewrite (since_app _ _ _ Hlog).
  destruct n as [| n].
  - destruct Hfiles as [(file & Hf & _) | [(_ & -> & -> & Hno) | (_ & -> & Hfs)]];
      [congruence | by left |].
    right. left.
    destruct Hr as [(? & _) | [(? & _) | (e & _ & _ & ->)]]; done.
  - do 2 right.
    destruct Hfiles as (b & l & s & j & _ & Hb & Hl & Hs & _ & Hfresh & -> & ->).
    destruct n as [| n]; [lia |].
    eexists _, b, l, s, _. split_and!; try done.
Qed.

Lemma preflight_passes_when_all_present_witness :
  let w := sim_ready "example.com" in
  let out := generate_server_cert sim_shell sim_tmp_dir sim_tmp_name
               "example.com" w in
  (out = (Raise UnicodeDecodeError, w) /\
   (text_of (files w) "ca/openssl.cnf" = None \/
    text_of (files w) "ca/v3_req.cnf" = None \/
    text_of (files w) ("ca/" +:+ "example.com" +:+ ".cnf") = None \/
    text_of (files w) ("ca/" +:+ "example.com" +:+ ".subj") = None)) \/
  (out.1 = Raise FileExistsError /\
   files (out.2) = files w /\ since w (out.2) = []) \/
  (exists temp_cnf b l s rest,
     text_of (files w) "ca/openssl.cnf" = Some b /\
     text_of (files w) "ca/v3_req.cnf" = Some l /\
     text_of (files w) ("ca/" +:+ "example.com" +:+ ".cnf") = Some s /\
     files w !! temp_cnf = None /\
     since w (out.2) =
       MkTemp temp_cnf (merged_cnf b l s)
       :: Exec (leaf_key_command "example.com") :: rest).
Proof.
  apply (preflight_passes_when_all_present sim_shell sim_tmp_dir sim_tmp_name
           "example.com" (sim_ready "example.com")).
  intros path Hin. apply list_elem_of_In in Hin. cbn in Hin.
  repeat (destruct Hin as [<- | Hin]; [vm_compute; eexists; reflexivity |]).
  destruct Hin.
Defined.

(** ** The whole process *)

Lemma take_no_stderr n domain temp_cnf merged subj text :
  Stderr text ∉ take n (main_steps domain temp_cnf merged subj).
Proof.
  intros Hin. apply subseteq_take in Hin. cbn in Hin.
  repeat (apply elem_of_cons in Hin as [Hin | Hin]; [discriminate |]).
  by apply elem_of_nil in Hin.
Qed.

(** X8.  The process ends with status 0 or 1, and with 0 exactly when
    [main] returned.  A line of [error] is in the trace exactly when [main]
    ended through [sys.exit]: a run with status 0 printed none, and a run
    that an exception ended printed none either. *)
Theorem script_exit_status
  (shell : nat -> string -> gmap string string -> completed)
  (tmp_dir : string) (tmp_name : nat -> string) (denied : string -> bool)
  (argv : list string) (fs : gmap string string) :
  let stopped := main shell tmp_dir tmp_name denied argv (start fs) in
  let out := script shell tmp_dir tmp_name denied argv fs in
  (out.1 = 0 \/ out.1 = 1) /\
  (out.1 = 0 <-> stopped.1 = Ret tt) /\
  ((exists text, Stderr text ∈ log (out.2)) <-> stopped.1 = Exit 1).
Proof.
  cbn zeta. unfold script.
  destruct (main shell tmp_dir tmp_name denied argv (start fs)) as [r w1] eqn:Hmain.
  unfold cleanup_temp_files.
  destruct (cleanup_loop_run (temp_files w1) w1) as (removed & -> & _).
  cbn [fst snd log].
  apply main_outcome in Hmain
    as (n & name & merged & subj & errs & Hlog & Hn & Herr & Hr).
  assert (Hlines : (exists text, Stderr text ∈ log w1 ++ map Remove removed)
                   <-> errs <> []).
  { rewrite Hlog. split.
    - intros [text Hin] ->. rewrite app_nil_r in Hin.
      apply elem_of_app in Hin as [Hin | Hin].
      + by apply take_no_stderr in Hin.
      + apply list_elem_of_fmap in Hin as (p & [=] & _).
    - destruct errs as [| [c | text | p c | a b | p] errs]; [done | ..];
        intros _; apply Forall_cons in Herr as [He _]; try done.
      exists text. apply elem_of_app. left. apply elem_of_app. right. by left. }
  rewrite Hlines.
  destruct Hr as [(-> & -> & ->) | [(-> & Hlt & Hne) | (e & -> & Hlt & ->)]];
    cbn; split_and!; try (by left); try (by right); try done.
Qed.

(** X9.  The stages run in order.  The commands handed to the shell in a
    run are an initial part of the seven commands of a whole run (the check
    for the tool, CA key, CA certificate, leaf key, PKCS#8 encoding,
    request, signing), and a run with status 0 has run all seven.  A check
    for the tool with a status other than zero ends the process with status
    1 after that one command, on the file system that it left; when the
    check passed and the configuration was written, a failing CA key
    command ends it after two commands and a failing CA certificate command
    after three, each time on the file system that the failing command
    left. *)
Theorem script_commands_in_order
  (shell : nat -> string -> gmap string string -> completed)
  (tmp_dir : string) (tmp_name : nat -> string) (denied : string -> bool)
  (argv : list string) (fs : gmap string string) :
  let domain := domain_of_argv argv in
  let out := script shell tmp_dir tmp_name denied argv fs in
  let tool := shell O "openssl version" fs in
  let config :=
    create_default_config_files denied domain
      (World (disk tool) [] [Exec "openssl version"] 1) in
  let ca_key := shell (clock (config.2)) ca_key_command (files (config.2)) in
  let ca_cert := shell (S (clock (config.2))) ca_cert_command (disk ca_key) in
  (exists temp_cnf subj,
     commands_of (log (out.2)) `prefix_of`
       [ "openssl version";
         ca_key_command;
         ca_cert_command;
         leaf_key_command domain;
         pkcs8_command domain;
         csr_command domain temp_cnf subj;
         sign_command domain temp_cnf ] /\
     (out.1 = 0 ->
      commands_of (log (out.2)) =
       [ "openssl version";
         ca_key_command;
         ca_cert_command;
         leaf_key_command domain;
         pkcs8_command domain;
         csr_command domain temp_cnf subj;
         sign_command domain temp_cnf ])) /\
  (returncode tool <> 0 ->
     out.1 = 1 /\
     commands_of (log (out.2)) = ["openssl version"] /\
     files (out.2) = disk tool) /\
  (returncode tool = 0 -> config.1 = Ret tt -> returncode ca_key <> 0 ->
     out.1 = 1 /\
     commands_of (log (out.2)) = ["openssl version"; ca_key_command] /\
     files (out.2) = disk ca_key) /\
  (returncode tool = 0 -> config.1 = Ret tt -> returncode ca_key = 0 ->
   returncode ca_cert <> 0 ->
     out.1 = 1 /\
     commands_of (log (out.2))
       = ["openssl version"; ca_key_command; ca_cert_command] /\
     files (out.2) = disk ca_cert).
Proof.
  cbn zeta. split.
  { unfold script.
    destruct (main shell tmp_dir tmp_name denied argv (start fs))
      as [r w1] eqn:Hmain.
    unfold cleanup_temp_files.
    destruct (cleanup_loop_run (temp_files w1) w1) as (removed & -> & _).
    cbn [fst snd log].
    apply main_outcome in Hmain
      as (n & name & merged & subj & errs & Hlog & Hn & Herr & Hr).
    exists (temp_path tmp_dir name), subj.
    rewrite Hlog, !commands_of_app, commands_of_removes,
      (commands_of_stderr errs), !app_nil_r by done.
    split.
    - apply (commands_of_take n (main_steps _ _ merged subj)).
    - destruct Hr as [(-> & -> & ->) | [(-> & _) | (e & -> & _)]]; by cbn. }
  unfold script, main. cbn zeta.
  rewrite bind_run, check_openssl_run.
  cbn [files temp_files log clock start app].
  set (tool := shell O "openssl version" fs).
  destruct (Z.eqb_spec (returncode tool) 0) as [Htool | Htool].
  2:{ by split_and!. }
  rewrite bind_run.
  set (config := create_default_config_files denied (domain_of_argv argv) _).
  assert (Hlog : commands_of (log (config.2)) = ["openssl version"] /\
                 temp_files (config.2) = []).
  { subst config. rewrite create_default_config_files_run.
    destruct (denied "ca"); [done |].
    destruct (write_defaults denied _ _) as [r1 w1] eqn:Hw.
    apply write_defaults_log in Hw as (Hl & Ht & _).
    cbn [snd]. by rewrite Hl, Ht. }
  destruct Hlog as [Hlog Htemps].
  destruct config as [rc wc] eqn:Hc. cbn [fst snd] in *.
  split; [done |].
  destruct rc as [[] | code | e]; [| by split | by split].
  rewrite bind_run, generate_ca_cert_run. cbn zeta.
  set (ca_key := shell (clock wc) ca_key_command (files wc)).
  set (ca_cert := shell (S (clock wc)) ca_cert_command (disk ca_key)).
  destruct (Z.eqb_spec (returncode ca_key) 0) as [Hkey | Hkey].
  2:{ split; [| done]. intros _ _ _. rewrite Htemps. cbn.
      by rewrite commands_of_app, Hlog. }
  split; [done |].
  destruct (Z.eqb_spec (returncode ca_cert) 0) as [Hcert | Hcert]; [done |].
  intros _ _ _ _. rewrite Htemps. cbn.
  by rewrite commands_of_app, Hlog.
Qed.

Lemma script_commands_in_order_witness :
  let no_ca_cert (t : nat) (command : string) (fs : gmap string string) :=
    if has_flag "-x509" (words command)
    then Completed 1 "req: cannot open the key" fs
    else sim_shell t command fs in
  let argv := ["generate_certs.py"; "--domain"; "example.com"] in
  let stopped := script no_shell sim_tmp_dir sim_tmp_name sim_denied argv ∅ in
  let out := script no_ca_cert sim_tmp_dir sim_tmp_name sim_denied argv ∅ in
  (stopped.1 = 1 /\ commands_of (log (stopped.2)) = ["openssl version"]) /\
  (out.1 = 1 /\
   commands_of (log (out.2))
     = ["openssl version"; ca_key_command; ca_cert_command]).
Proof.
  cbn zeta. split.
  - destruct (script_commands_in_order no_shell sim_tmp_dir sim_tmp_name
                sim_denied ["generate_certs.py"; "--domain"; "example.com"] ∅)
      as (_ & Htool & _).
    destruct Htool as (Hs & Hc & _).
    + vm_compute. discriminate.
    + split; [exact Hs | exact Hc].
  - destruct (script_commands_in_order
                (fun t command fs =>
                   if has_flag "-x509" (words command)
                   then Completed 1 "req: cannot open the key" fs
                   else sim_shell t command fs)
                sim_tmp_dir sim_tmp_name
                sim_denied ["generate_certs.py"; "--domain"; "example.com"] ∅)
      as (_ & _ & _ & Hcert).
    destruct Hcert as (Hs & Hc & _).
    + vm_compute. reflexivity.
    + vm_compute. reflexivity.
    + vm_compute. reflexivity.
    + vm_compute. discriminate.
    + split; [exact Hs | exact Hc].
Defined.

(** X10.  What the script itself does to files, apart from writing absent
    configuration files: every file it removes is the signing request of
    the domain or a temporary file that it made in this run; the only move
    is that of the PKCS#8 key over the leaf key; and every temporary file
    is made in the temporary directory, under a name that starts with
    [tmp]. *)
Theorem script_removes_only_its_own
  (shell : nat -> string -> gmap string string -> completed)
  (tmp_dir : string) (tmp_name : nat -> string) (denied : string -> bool)
  (argv : list string) (fs : gmap string string) :
  let domain := domain_of_argv argv in
  let final := (script shell tmp_dir tmp_name denied argv fs).2 in
  Forall
    (fun e =>
       match e with
       | Remove path =>
           path = "ca/" +:+ domain +:+ ".csr" \/
           exists content, MkTemp path content ∈ log final
       | Move src dst =>
           src = "ca/" +:+ domain +:+ ".key.pkcs8" /\
           dst = "ca/" +:+ domain +:+ ".key"
       | MkTemp path _ => exists name, path = temp_path tmp_dir name
       | Exec _ | Stderr _ => True
       end)
    (log final).
Proof.
  cbn zeta. unfold script.
  destruct (main shell tmp_dir tmp_name denied argv (start fs)) as [r w1] eqn:Hmain.
  unfold cleanup_temp_files.
  destruct (cleanup_loop_run (temp_files w1) w1) as (removed & -> & Hsub).
  cbn [snd log].
  apply main_shape in Hmain
    as (reports & n & name & merged & subj & errs
        & Hrep & Herr & Hlog & Htemp & Hn & _).
  cbn zeta in *. rewrite Hlog. apply Forall_forall. intros e Hin.
  rewrite <- !app_assoc in Hin.
  apply elem_of_app in Hin as [Hin | Hin].
  { rewrite Forall_forall in Hrep. apply Hrep in Hin. by destruct e. }
  apply elem_of_app in Hin as [Hin | Hin].
  { apply subseteq_take in Hin. cbn in Hin.
    repeat (apply elem_of_cons in Hin as [-> | Hin]; [by eauto |]).
    by apply elem_of_nil in Hin. }
  apply elem_of_app in Hin as [Hin | Hin].
  { rewrite Forall_forall in Herr. apply Herr in Hin. by destruct e. }
  apply list_elem_of_fmap in Hin as (path & -> & Hpath).
  right. apply Hsub in Hpath. rewrite Htemp in Hpath.
  destruct n as [| n]; [by apply elem_of_nil in Hpath |].
  apply list_elem_of_singleton in Hpath as ->.
  exists merged. apply elem_of_app. left. apply elem_of_app. right.
  apply elem_of_app. left. cbn. apply list_elem_of_here.
Qed.

(** ** Files of the user *)

#[global] Instance untouched_preorder (path content : string) :
  PreOrder (untouched path content).
Proof.
  split.
  - by intros w H.
  - intros w1 w2 w3 H12 H23 H. by apply H23, H12.
Qed.

Section Untouched.

Variable shell : nat -> string -> gmap string string -> completed.
Variable tmp_dir : string.
Variable tmp_name : nat -> string.
Variable denied : string -> bool.
Variable path content : string.
Hypothesis shell_spares : spares shell path.

Lemma untouched_same {A} (m : prog A) :
  (forall w, files (m w).2 = files w /\ temp_files (m w).2 = temp_files w) ->
  within (untouched path content) m.
Proof. intros H w. destruct (H w) as [Hf Ht]. unfold untouched. by rewrite Hf, Ht. Qed.

Lemma untouched_error {A} message :
  within (untouched path content) (@error A message).
Proof. by apply untouched_same. Qed.

Lemma untouched_run_command command check :
  within (untouched path content) (run_command shell command check).
Proof.
  unfold run_command. apply within_bind; [apply _ | |].
  - intros w [Hf Ht]. cbn. by rewrite shell_spares.
  - intros result. apply within_if; [apply untouched_error |].
    apply within_ret, _.
Qed.

Lemma untouched_write_if_absent p c :
  within (untouched path content) (write_if_absent denied p c).
Proof.
  intros w [Hf Ht]. rewrite write_if_absent_run.
  destruct (files w !! p) as [old |] eqn:E; [done |].
  destruct (denied p); [done |]. cbn. split; [| done].
  rewrite lookup_insert_ne; [done | congruence].
Qed.

Lemma untouched_check_required paths :
  within (untouched path content) (check_required paths).
Proof.
  induction paths as [| file rest IH]; cbn; [apply within_ret, _ |].
  apply within_bind; [apply _ | by apply untouched_same |].
  intros present. apply within_if; [apply untouched_error | apply IH].
Qed.

Lemma untouched_read_text p :
  within (untouched path content) (read_text p).
Proof.
  apply untouched_same. intros w. unfold read_text.
  destruct (files w !! p) as [data |]; [| done].
  by destruct (py_decode data).
Qed.

Lemma untouched_create_temp_file c :
  within (untouched path content) (create_temp_file tmp_dir tmp_name c).
Proof.
  intros w [Hf Ht]. rewrite create_temp_file_run.
  destruct (mkstemp_try tmp_dir tmp_name TMP_MAX (clock w) (files w))
    as [[p t] |] eqn:E; cbn; [| done].
  apply mkstemp_try_Some in E as [Hfresh _].
  assert (p <> path) by congruence. split.
  - by rewrite !lookup_insert_ne.
  - intros [? | ->%list_elem_of_singleton]%elem_of_app; done.
Qed.

Lemma untouched_shutil_move src dst :
  path <> src -> path <> dst ->
  within (untouched path content) (shutil_move src dst).
Proof.
  intros Hs Hd w [Hf Ht]. unfold shutil_move.
  destruct (files w !! src) as [c |]; cbn; [| done]. split; [| done].
  rewrite lookup_insert_ne by done. by rewrite lookup_delete_ne.
Qed.

Lemma untouched_os_remove p :
  path <> p -> within (untouched path content) (os_remove p).
Proof.
  intros Hp w [Hf Ht]. unfold os_remove, os_unlink.
  destruct (files w !! p) as [c |]; cbn; [| done]. split; [| done].
  by rewrite lookup_delete_ne.
Qed.

Lemma untouched_main argv :
  path <> "ca/" +:+ domain_of_argv argv +:+ ".key" ->
  path <> "ca/" +:+ domain_of_argv argv +:+ ".key.pkcs8" ->
  path <> "ca/" +:+ domain_of_argv argv +:+ ".csr" ->
  within (untouched path content) (main shell tmp_dir tmp_name denied argv).
Proof.
  intros Hkey Hpkcs8 Hcsr. unfold main. cbn zeta.
  apply within_bind; [apply _ | | intros _].
  { unfold check_openssl.
    apply within_try_except; [apply _ | | apply untouched_error].
    apply within_bind; [apply _ | apply untouched_run_command | intros _].
    apply within_ret, _. }
  apply within_bind; [apply _ | | intros _].
  { unfold create_default_config_files, os_makedirs.
    repeat (apply within_bind; [apply _ | | intros _]);
      try apply untouched_write_if_absent.
    apply within_if; [apply within_raise, _ | apply within_ret, _]. }
  apply within_bind; [apply _ | | intros _].
  { unfold generate_ca_cert.
    repeat (apply within_bind; [apply _ | | intros _]);
      try apply untouched_run_command.
    apply within_ret, _. }
  unfold generate_server_cert.
  apply within_bind; [apply _ | apply untouched_check_required | intros _].
  do 4 (apply within_bind; [apply _ | apply untouched_read_text | intros ?]).
  cbn zeta.
  apply within_bind; [apply _ | apply untouched_create_temp_file | intros ?].
  do 2 (apply within_bind; [apply _ | apply untouched_run_command | intros _]).
  apply within_bind; [apply _ | by apply untouched_shutil_move | intros _].
  do 2 (apply within_bind; [apply _ | apply untouched_run_command | intros _]).
  by apply untouched_os_remove.
Qed.

End Untouched.

Lemma sparing_spares (path : string)
  (shell : nat -> string -> gmap string string -> completed) :
  spares (sparing path shell) path.
Proof. intros t command fs. unfold sparing. cbn. apply lookup_partial_alter_eq. Qed.



(** The run of the witness goes through: status 0, with the template of the
    user in the merged profile. *)
Example script_with_own_template :
  let out := script (sparing "ca/openssl.cnf" sim_shell) sim_tmp_dir sim_tmp_name sim_denied
               ["generate_certs.py"; "--domain"; "example.com"]
               {["ca/openssl.cnf" := "my own template"]} in
  out.1 = 0 /\
  MkTemp "/tmp/tmp3"
    (merged_cnf "my own template" v3_req_cnf (domain_cnf "example.com"))
    ∈ log (out.2).
Proof.
  cbn zeta. split; [vm_compute; reflexivity |].
  vm_compute. do 3 apply list_elem_of_further. apply list_elem_of_here.
Qed.
